(** * allensdk.api.cache: the query-strategy engine and the manifest facade

    A shallow embedding of [src/allensdk/api/cache.py].  Python objects that
    flow through the cache as data are values of type [value]; a call of the
    engine is a computation over an abstract environment [Env] (file system,
    remote server) that may raise, and that records, next to its result, the
    ordered list of calls it made to its collaborators. *)

From Stdlib Require Import String Ascii List Bool ZArith.
Import ListNotations.
Open Scope string_scope.

Set Implicit Arguments.
Set Warnings "-register-all".

(* ------------------------------------------------------------------ *)
(** ** Python data *)

Inductive value : Type :=
| VNone
| VBool (b : bool)
| VInt (n : Z)
| VStr (s : string)
| VList (l : list value)
| VDict (items : list (string * value)).

(** [x is None] *)
Definition is_None (v : value) : bool :=
  match v with VNone => true | _ => false end.

(** ['lit' == x] for a string literal: true on the equal string only. *)
Definition str_eq (lit : string) (v : value) : bool :=
  match v with VStr s => String.eqb lit s | _ => false end.

(** Truth value of an object in [if x:]. *)
Definition truthy (v : value) : bool :=
  match v with
  | VNone => false
  | VBool b => b
  | VInt n => negb (Z.eqb n 0)
  | VStr s => negb (String.eqb s "")
  | VList l => match l with [] => false | _ => true end
  | VDict d => match d with [] => false | _ => true end
  end.

(* ------------------------------------------------------------------ *)
(** ** Exceptions and outcomes *)

Inductive exn : Type :=
| UnboundLocalError (name : string)
| TypeError (msg : string)
| Exception (msg : string)
| OtherError (cls msg : string).

Inductive outcome (A : Type) : Type :=
| Return (a : A)
| Raise (e : exn).
Arguments Raise {A} e.

(* ------------------------------------------------------------------ *)
(** ** Calls made by the module to its collaborators *)

Inductive event : Type :=
| EvExists (path : string)                     (* os.path.exists(path) *)
| EvMakeParentDirs (path : string)             (* Manifest.safe_make_parent_dirs(path) *)
| EvMkdir (dirname : string)                   (* Manifest.safe_mkdir(dirname) *)
| EvFetch (args : list value) (kwargs : list (string * value))  (* fn called on args and kwargs *)
| EvPre (data : value)                         (* pre(data) *)
| EvWrite (path : string) (data : value)       (* writer(path, data) *)
| EvRead (path : string)                       (* reader(path) *)
| EvPost (data : value)                        (* post(data) *)
| EvBuildManifest (file_name : string)         (* self.build_manifest(file_name) *)
| EvJsonRead (file_name : string)              (* ju.read(file_name) *)
| EvManifestInit (dirname : string)            (* Manifest(..., dirname) *)
| EvGetPath (key : string) (args : list value) (* self.manifest.get_path on key and args *).

Definition is_fetch (ev : event) : bool :=
  match ev with EvFetch _ _ => true | _ => false end.
Definition is_write (ev : event) : bool :=
  match ev with EvWrite _ _ => true | _ => false end.
Definition is_read (ev : event) : bool :=
  match ev with EvRead _ => true | _ => false end.
Definition is_exists (ev : event) : bool :=
  match ev with EvExists _ => true | _ => false end.
Definition is_make_dirs (ev : event) : bool :=
  match ev with EvMakeParentDirs _ | EvMkdir _ => true | _ => false end.

(* ------------------------------------------------------------------ *)
(** ** The computation monad: environment passing, exceptions, call log *)

Section Monad.
Variable Env : Type.

(** What a collaborator does: it runs in an environment, returns or raises,
    and leaves an environment behind. *)
Definition action (A : Type) : Type := Env -> outcome A * Env.

Record run (A : Type) : Type := Run {
  out : outcome A;
  env' : Env;
  trace : list event
}.

Definition M (A : Type) : Type := Env -> run A.

Definition ret {A} (a : A) : M A :=
  fun e => Run (Return a) e [].

Definition raise {A} (x : exn) : M A :=
  fun e => Run (Raise x) e [].

Definition bind {A B} (m : M A) (k : A -> M B) : M B :=
  fun e =>
    let r := m e in
    match out r with
    | Return a =>
        let r' := k a (env' r) in
        Run (out r') (env' r') (trace r ++ trace r')
    | Raise x => Run (Raise x) (env' r) (trace r)
    end.

(** A call to a collaborator that acts on the environment. *)
Definition invoke {A} (ev : event) (f : action A) : M A :=
  fun e => let (o, e1) := f e in Run o e1 [ev].

(** A call to a function of its argument alone. *)
Definition apply_fn {A} (ev : event) (o : outcome A) : M A :=
  fun e => Run o e [ev].

(** An observation of the environment. *)
Definition observe {A} (ev : event) (f : Env -> A) : M A :=
  fun e => Run (Return (f e)) e [ev].

(** The same run with one more call in front of its log. *)
Definition after_event {A} (ev : event) (r : run A) : run A :=
  Run (out r) (env' r) (ev :: trace r).
End Monad.

Arguments ret {Env A} a.
Arguments raise {Env A} x.
Arguments Run {Env A} out env' trace.

Declare Scope cache_scope.
Notation "x <- m ;; k" := (bind m (fun x => k))
  (at level 61, m at next level, right associativity) : cache_scope.
Notation "m ;; k" := (bind m (fun _ => k))
  (at level 61, right associativity) : cache_scope.
Open Scope cache_scope.

(* ------------------------------------------------------------------ *)
(** ** What the module imports *)

(** [os.path], [allensdk.config.manifest.Manifest] and
    [allensdk.core.json_utilities] are used by the module and defined
    elsewhere: they are the operations of an interface. *)
Class Platform (Env : Type) : Type := {
  (** os.path.exists *)
  os_path_exists : string -> Env -> bool;
  (** os.path.dirname *)
  os_path_dirname : string -> string;
  (** the class Manifest, its constructor and get_path *)
  Manifest : Type;
  Manifest_init : value -> string -> action Env Manifest;
  Manifest_get_path : Manifest -> string -> list value -> action Env value;
  (** Manifest.safe_mkdir and Manifest.safe_make_parent_dirs *)
  Manifest_safe_mkdir : string -> action Env unit;
  Manifest_safe_make_parent_dirs : string -> action Env unit;
  (** ju.read *)
  ju_read : string -> action Env value
}.

(** [d[key]] on a value. *)
Definition getitem (d : value) (key : string) : outcome value :=
  match d with
  | VDict items =>
      match find (fun kv => String.eqb key (fst kv)) items with
      | Some kv => Return (snd kv)
      | None => Raise (OtherError "KeyError" key)
      end
  | _ => Raise (TypeError "object is not subscriptable")
  end.

(* ------------------------------------------------------------------ *)
(** ** Keyword arguments of [Cache.cacher] *)

(** A keyword is either absent from the call or given with an object. *)
Inductive kwarg (A : Type) : Type :=
| Absent
| Given (a : A).
Arguments Absent {A}.

(** [kwargs.pop(key, default)] *)
Definition pop {A} (k : kwarg A) (default : A) : A :=
  match k with Absent => default | Given a => a end.

Section Cacher.
Context {Env : Type} {P : Platform Env}.

(** The query function, called on positional and keyword arguments. *)
Definition query_fn : Type :=
  list value -> list (string * value) -> action Env value.
(** [pre] and [post]: one data argument to an object
    ("df|json->df|json", "df|json->?"); the result depends on the argument
    alone, and the call may raise. *)
Definition transform : Type := value -> outcome value.
(** [reader]: path -> data. *)
Definition reader_fn : Type := string -> action Env value.
(** [writer]: path, data -> None. *)
Definition writer_fn : Type := string -> value -> action Env value.

(** The recognised keywords, each absent or given; a hook that is given is
    a callable ([Some]) or the object None ([None]).  [kw_rest] holds the
    keywords left for the query function. *)
Record Kwargs : Type := {
  kw_path : kwarg string;
  kw_query_strategy : kwarg value;
  kw_pre : kwarg (option transform);
  kw_post : kwarg (option transform);
  kw_reader : kwarg (option reader_fn);
  kw_writer : kwarg (option writer_fn);
  kw_rest : list (string * value)
}.

(** [lambda d: d] *)
Definition identity : transform := fun d => Return d.

(** Calling an object that may be None. *)
Definition call_transform (ev : event) (f : option transform) (d : value)
  : M Env value :=
  match f with
  | Some g => apply_fn ev (g d)
  | None => raise (TypeError "'NoneType' object is not callable")
  end.

(** Reading the local variable [data], which is unbound until a step
    assigns it. *)
Definition load_data (data : option value) : M Env value :=
  match data with
  | Some d => ret d
  | None => raise (UnboundLocalError "data")
  end.

(** Lines 200-207: 'lazy' becomes 'file' or 'create', None becomes
    'pass_through'. *)
Definition normalize_strategy (path : string) (query_strategy : value)
  : M Env value :=
  query_strategy <-
    (if str_eq "lazy" query_strategy then
       present <- observe (EvExists path) (os_path_exists path) ;;
       if (present : bool) then ret (VStr "file") else ret (VStr "create")
     else ret query_strategy) ;;
  if is_None query_strategy then ret (VStr "pass_through")
  else ret query_strategy.

(** Lines 209-220: the branch on the strategy; the result is the binding of
    [data] afterwards. *)
Definition fetch_step (fn : query_fn) (args : list value)
    (kwargs : list (string * value)) (path : string)
    (pre : option transform) (writer : option writer_fn)
    (query_strategy : value) : M Env (option value) :=
  if str_eq "pass_through" query_strategy then
    data <- invoke (EvFetch args kwargs) (fn args kwargs) ;;
    ret (Some data)
  else if negb (str_eq "file" query_strategy) then
    match writer with
    | Some w =>
        invoke (EvMakeParentDirs path) (Manifest_safe_make_parent_dirs path) ;;
        data <- invoke (EvFetch args kwargs) (fn args kwargs) ;;
        data <- call_transform (EvPre data) pre data ;;
        invoke (EvWrite path data) (w path data) ;;
        ret (Some data)
    | None =>
        invoke (EvFetch args kwargs) (fn args kwargs) ;;
        ret None
    end
  else ret None.

(** Lines 222-223. *)
Definition read_step (reader : option reader_fn) (path : string)
    (data : option value) : M Env (option value) :=
  match reader with
  | Some r =>
      data <- invoke (EvRead path) (r path) ;;
      ret (Some data)
  | None => ret data
  end.

(** Lines 225-235. *)
Definition post_step (post : option transform) (data : option value)
  : M Env value :=
  match post with
  | Some p =>
      d <- load_data data ;;
      data <- apply_fn (EvPost d) (p d) ;;
      ret data
  | None =>
      match data with
      | Some d => ret d          (* try: data; return data *)
      | None => ret VNone        (* except: pass; return *)
      end
  end.

(** [Cache.cacher]: fn, its positional arguments, the keywords. *)
Definition cacher (fn : query_fn) (args : list value) (kwargs : Kwargs)
  : M Env value :=
  let path := pop (kw_path kwargs) "data.csv" in
  let query_strategy := pop (kw_query_strategy kwargs) VNone in
  let pre := pop (kw_pre kwargs) (Some identity) in
  let post := pop (kw_post kwargs) (Some identity) in
  let reader := pop (kw_reader kwargs) None in
  let writer := pop (kw_writer kwargs) None in
  let kwargs := kw_rest kwargs in
  query_strategy <- normalize_strategy path query_strategy ;;
  data <- fetch_step fn args kwargs path pre writer query_strategy ;;
  data <- read_step reader path data ;;
  post_step post data.

(** [cacheable(func)]: the decorated function hands its call to the
    engine. *)
Definition cacheable (func : query_fn) (args : list value) (kwargs : Kwargs)
  : M Env value :=
  result <- cacher func args kwargs ;;
  ret result.
End Cacher.

(* ------------------------------------------------------------------ *)
(** ** The facade: [class Cache] *)

Section Facade.
Context {Env : Type} {P : Platform Env}.

(** The attributes of an instance. *)
Record Cache : Type := {
  cache : bool;
  manifest : option Manifest
}.

(** [self.build_manifest], which a subclass overrides. *)
Class CacheClass : Type := {
  self_build_manifest : string -> action Env unit
}.

(** [Cache.build_manifest], the method of the base class. *)
Definition build_manifest (file_name : string) : action Env unit :=
  fun e =>
    (Raise (Exception "This function must be defined in the appropriate subclass"), e).

#[local] Instance Cache_base : CacheClass := {
  self_build_manifest := build_manifest
}.

(** A value that is there or raises, inside a computation. *)
Definition lift_outcome {A} (o : outcome A) : M Env A :=
  fun e => Run o e [].

(** [Cache.get_cache_path(self, file_name, manifest_key, *args)]. *)
Definition get_cache_path (self : Cache) (file_name : value)
    (manifest_key : string) (args : list value) : M Env value :=
  if cache self then
    if truthy file_name then ret file_name
    else
      match manifest self with
      | Some m =>
          invoke (EvGetPath manifest_key args)
                 (Manifest_get_path m manifest_key args)
      | None => ret VNone
      end
  else ret VNone.

(** [Cache.load_manifest(self, file_name)]: the instance afterwards. *)
Definition load_manifest {C : CacheClass} (self : Cache)
    (file_name : option string) : M Env Cache :=
  match file_name with
  | Some file_name =>
      present <- observe (EvExists file_name) (os_path_exists file_name) ;;
      (if negb present then
         let dirname := os_path_dirname file_name in
         (if negb (String.eqb dirname "") then
            invoke (EvMkdir dirname) (Manifest_safe_mkdir dirname)
          else ret tt) ;;
         invoke (EvBuildManifest file_name) (self_build_manifest file_name)
       else ret tt) ;;
      doc <- invoke (EvJsonRead file_name) (ju_read file_name) ;;
      spec <- lift_outcome (getitem doc "manifest") ;;
      m <- invoke (EvManifestInit (os_path_dirname file_name))
                  (Manifest_init spec (os_path_dirname file_name)) ;;
      ret {| cache := cache self; manifest := Some m |}
  | None => ret {| cache := cache self; manifest := None |}
  end.

(** [Cache.__init__(self, manifest=None, cache=True)]. *)
Definition Cache_init {C : CacheClass} (manifest_file : option string)
    (cache_flag : bool) : M Env Cache :=
  load_manifest {| cache := cache_flag; manifest := None |} manifest_file.
End Facade.

(* ------------------------------------------------------------------ *)
(** ** A small file system on which the module runs *)

Module Demo.
(** Files with the data they hold, and the directories. *)
Record fs : Type := {
  files : list (string * value);
  dirs : list string
}.

Definition lookup (p : string) (e : fs) : option value :=
  match find (fun kv => String.eqb p (fst kv)) (files e) with
  | Some kv => Some (snd kv)
  | None => None
  end.

Definition store (p : string) (v : value) (e : fs) : fs :=
  {| files := (p, v) :: files e; dirs := dirs e |}.

Definition add_dir (d : string) (e : fs) : fs :=
  if existsb (String.eqb d) (dirs e) then e
  else {| files := files e; dirs := d :: dirs e |}.

Definition exists_ (p : string) (e : fs) : bool :=
  match lookup p e with
  | Some _ => true
  | None => existsb (String.eqb p) (dirs e)
  end.

Definition is_sep (c : Ascii.ascii) : bool := Ascii.eqb c "/"%char.

(** The path up to and including its last separator. *)
Fixpoint head_part (p : string) : string :=
  match p with
  | EmptyString => EmptyString
  | String c rest =>
      match head_part rest with
      | EmptyString => if is_sep c then String c EmptyString else EmptyString
      | h => String c h
      end
  end.

Fixpoint rstrip_sep (s : string) : string :=
  match s with
  | EmptyString => EmptyString
  | String c rest =>
      match rstrip_sep rest with
      | EmptyString => if is_sep c then EmptyString else String c EmptyString
      | r => String c r
      end
  end.

(** posixpath.dirname: the head, without trailing separators unless it
    consists of separators only. *)
Definition dirname (p : string) : string :=
  let head := head_part p in
  match rstrip_sep head with
  | EmptyString => head
  | stripped => stripped
  end.

Definition read_file (p : string) : action fs value :=
  fun e =>
    match lookup p e with
    | Some v => (Return v, e)
    | None => (Raise (OtherError "IOError" p), e)
    end.

Definition write_file (p : string) (v : value) : action fs value :=
  fun e => (Return VNone, store p v e).

#[global] Instance platform : Platform fs := {
  os_path_exists := exists_;
  os_path_dirname := dirname;
  Manifest := value * string;
  Manifest_init := fun spec dir e => (Return (spec, dir), e);
  Manifest_get_path := fun m key _ e => (getitem (fst m) key, e);
  Manifest_safe_mkdir := fun d e => (Return tt, add_dir d e);
  Manifest_safe_make_parent_dirs :=
    fun p e =>
      (Return tt,
       if String.eqb (dirname p) "" then e else add_dir (dirname p) e);
  ju_read := read_file
}.

Definition empty : fs := {| files := []; dirs := [] |}.

(** A query that returns a dict and leaves the file system alone. *)
Definition table : value := VDict [("a", VInt 1)].
Definition fetch_table : @query_fn fs :=
  fun _ _ e => (Return table, e).

(** A query that must not be reached. *)
Definition fetch_fails : @query_fn fs :=
  fun _ _ e => (Raise (OtherError "IOError" "server unreachable"), e).

(** A hook that wraps its argument in a list. *)
Definition wrap_list : transform := fun d => Return (VList [d]).

(** A subclass whose default manifest is an empty one. *)
Definition empty_manifest : value := VDict [("manifest", VList [])].
#[global] Instance subclass : @CacheClass fs := {
  self_build_manifest := fun file_name e =>
    (Return tt, store file_name empty_manifest e)
}.

(** A file system in which data.csv holds an older result. *)
Definition stale : value := VStr "stale".
Definition stale_fs : fs := store "data.csv" stale empty.

(** No recognised keyword given. *)
Definition no_kwargs : @Kwargs fs := {|
  kw_path := Absent;
  kw_query_strategy := Absent;
  kw_pre := Absent;
  kw_post := Absent;
  kw_reader := Absent;
  kw_writer := Absent;
  kw_rest := []
|}.

(** The reader, and no other keyword. *)
Definition reader_only : @Kwargs fs := {|
  kw_path := Absent;
  kw_query_strategy := Absent;
  kw_pre := Absent;
  kw_post := Absent;
  kw_reader := Given (Some read_file);
  kw_writer := Absent;
  kw_rest := []
|}.

(** Writer and reader on a path, and a strategy. *)
Definition cached (path : string) (qs : value) : @Kwargs fs := {|
  kw_path := Given path;
  kw_query_strategy := Given qs;
  kw_pre := Absent;
  kw_post := Given (Some wrap_list);
  kw_reader := Given (Some read_file);
  kw_writer := Given (Some write_file);
  kw_rest := []
|}.
End Demo.

(* ------------------------------------------------------------------ *)
(** ** Keyword records that differ in one keyword *)

Section Keywords.
Context {Env : Type}.

Definition with_strategy (kw : @Kwargs Env) (qs : kwarg value) : Kwargs := {|
  kw_path := kw_path kw;
  kw_query_strategy := qs;
  kw_pre := kw_pre kw;
  kw_post := kw_post kw;
  kw_reader := kw_reader kw;
  kw_writer := kw_writer kw;
  kw_rest := kw_rest kw
|}.

Definition with_reader (kw : @Kwargs Env) (r : kwarg (option (@reader_fn Env)))
  : Kwargs := {|
  kw_path := kw_path kw;
  kw_query_strategy := kw_query_strategy kw;
  kw_pre := kw_pre kw;
  kw_post := kw_post kw;
  kw_reader := r;
  kw_writer := kw_writer kw;
  kw_rest := kw_rest kw
|}.

Definition with_post (kw : @Kwargs Env) (p : kwarg (option transform))
  : Kwargs := {|
  kw_path := kw_path kw;
  kw_query_strategy := kw_query_strategy kw;
  kw_pre := kw_pre kw;
  kw_post := p;
  kw_reader := kw_reader kw;
  kw_writer := kw_writer kw;
  kw_rest := kw_rest kw
|}.

(** A call that names the path and the strategy and no hook. *)
Definition bare_call (path : string) (qs : value)
    (rest : list (string * value)) : @Kwargs Env := {|
  kw_path := Given path;
  kw_query_strategy := Given qs;
  kw_pre := Absent;
  kw_post := Absent;
  kw_reader := Absent;
  kw_writer := Absent;
  kw_rest := rest
|}.

Definition with_rest (kw : @Kwargs Env) (rest : list (string * value))
  : Kwargs := {|
  kw_path := kw_path kw;
  kw_query_strategy := kw_query_strategy kw;
  kw_pre := kw_pre kw;
  kw_post := kw_post kw;
  kw_reader := kw_reader kw;
  kw_writer := kw_writer kw;
  kw_rest := rest
|}.

(** The path and the hooks a call of the engine works with. *)
Definition path_of (kw : @Kwargs Env) : string := pop (kw_path kw) "data.csv".
Definition strategy_of (kw : @Kwargs Env) : value :=
  pop (kw_query_strategy kw) VNone.
Definition pre_of (kw : @Kwargs Env) : option transform :=
  pop (kw_pre kw) (Some identity).
Definition post_of (kw : @Kwargs Env) : option transform :=
  pop (kw_post kw) (Some identity).
Definition reader_of (kw : @Kwargs Env) : option reader_fn :=
  pop (kw_reader kw) None.
Definition writer_of (kw : @Kwargs Env) : option writer_fn :=
  pop (kw_writer kw) None.
End Keywords.


(* ------------------------------------------------------------------ *)
(** ** The engine past the resolution of its strategy *)

Section Steps.
Context {Env : Type} {P : Platform Env}.

(** The steps after the resolution, as one computation. *)
Definition steps (fn : @query_fn Env) (args : list value) (kw : @Kwargs Env)
    (qs : value) : M Env value :=
  data <- fetch_step fn args (kw_rest kw) (path_of kw) (pre_of kw)
                     (writer_of kw) qs ;;
  data <- read_step (reader_of kw) (path_of kw) data ;;
  post_step (post_of kw) data.

(** A writer is configured. *)
Definition has_writer (kw : @Kwargs Env) : bool :=
  match writer_of kw with Some _ => true | None => false end.

(** The strategy takes the branch of line 212: it is neither
    'pass_through' nor 'file'. *)
Definition create_branch (qs : value) : bool :=
  negb (str_eq "pass_through" qs) && negb (str_eq "file" qs).

(** What a writer stores under a path is what the reader loads from it:
    once [w path x] has returned, [r path] returns [x], and does so again
    on every later call as long as only the reader has run in between. *)
Definition reproduces (w : @writer_fn Env) (r : @reader_fn Env)
    (path : string) : Prop :=
  exists holds : value -> Env -> Prop,
    (forall x e u e1, w path x e = (Return u, e1) -> holds x e1)
    /\ (forall x e, holds x e ->
          exists e1, r path e = (Return x, e1) /\ holds x e1).
End Steps.


(* ------------------------------------------------------------------ *)
(** ** Reading the call log *)

Definition is_pre (ev : event) : bool :=
  match ev with EvPre _ => true | _ => false end.
Definition is_post (ev : event) : bool :=
  match ev with EvPost _ => true | _ => false end.

Definition is_build (ev : event) : bool :=
  match ev with EvBuildManifest _ => true | _ => false end.


(** How many calls of a kind a log holds. *)
Definition count (f : event -> bool) (log : list event) : nat :=
  length (filter f log).

Section MoreKeywords.
Context {Env : Type}.

Definition with_pre (kw : @Kwargs Env) (p : kwarg (option transform))
  : Kwargs := {|
  kw_path := kw_path kw;
  kw_query_strategy := kw_query_strategy kw;
  kw_pre := p;
  kw_post := kw_post kw;
  kw_reader := kw_reader kw;
  kw_writer := kw_writer kw;
  kw_rest := kw_rest kw
|}.

(** The existence check a call makes ahead of its steps. *)
Definition check_events (kw : @Kwargs Env) : list event :=
  if str_eq "lazy" (strategy_of kw) then [EvExists (path_of kw)] else [].

(** A run with calls in front of its log. *)
Definition after_events {A} (t : list event) (r : run Env A) : run Env A :=
  Run (out r) (env' r) (t ++ trace r).
End MoreKeywords.

(* ------------------------------------------------------------------ *)
(** ** pandas and the JSON utilities *)

(** [pandas], [pandas.io.json] and [ju.write] are used by the module and
    defined elsewhere.  A dataframe is an object like any other; an operation
    applied to an object that does not support it raises. *)
Class Pandas (Env : Type) : Type := {
  (** pd.DataFrame(data) *)
  pd_DataFrame : value -> outcome value;
  (** pd.DataFrame.from_csv(path) *)
  pd_DataFrame_from_csv : string -> action Env value;
  (** pj.read_json(path, orient='records') *)
  pj_read_json : string -> action Env value;
  (** x.to_csv(p) *)
  df_to_csv : value -> string -> action Env value;
  (** x.to_dict('records') *)
  df_to_dict : value -> outcome value;
  (** data.columns *)
  df_columns : value -> outcome (list string);
  (** data.columns = labels; the object afterwards *)
  df_set_columns : value -> list string -> outcome value;
  (** data.set_index([index], inplace=True); the object afterwards *)
  df_set_index : value -> string -> outcome value;
  (** ju.write(path, data) *)
  ju_write : string -> value -> action Env value
}.

(** [x is True] *)
Definition is_True (v : value) : bool :=
  match v with VBool true => true | _ => false end.

Section Frames.
Context {Env : Type} {P : Platform Env} {Pd : Pandas Env}.

(** [[new_name if c == old_name else c for c in columns]] *)
Definition rename_labels (new_name old_name : string)
    (columns : list string) : list string :=
  map (fun c => if String.eqb c old_name then new_name else c) columns.

(** The loop of [rename_columns] over the pairs (new, old); [data] is
    changed in place, and the result is the object afterwards. *)
Fixpoint rename_loop (data : value) (tuples : list (string * string))
  : outcome value :=
  match tuples with
  | [] => Return data
  | (new_name, old_name) :: rest =>
      match df_columns data with
      | Raise x => Raise x
      | Return columns =>
          match df_set_columns data (rename_labels new_name old_name columns)
          with
          | Raise x => Raise x
          | Return data => rename_loop data rest
          end
      end
  end.

(** [Cache.rename_columns(data, new_old_name_tuples=None)] *)
Definition rename_columns (data : value)
    (new_old_name_tuples : option (list (string * string)))
  : outcome value :=
  let new_old_name_tuples :=
    match new_old_name_tuples with None => [] | Some l => l end in
  rename_loop data new_old_name_tuples.

(** [if index is not None: data.set_index([index], inplace=True)] *)
Definition set_index_if_given (data : value) (index : option string)
  : outcome value :=
  match index with
  | Some i => df_set_index data i
  | None => Return data
  end.

(** [Cache.load_csv(self, path, rename=None, index=None)] *)
Definition load_csv (path : string) (rename : option (list (string * string)))
    (index : option string) : M Env value :=
  data <- invoke (EvRead path) (pd_DataFrame_from_csv path) ;;
  data <- lift_outcome (rename_columns data rename) ;;
  data <- lift_outcome (set_index_if_given data index) ;;
  ret data.

(** [Cache.load_json(self, path, rename=None, index=None)] *)
Definition load_json (path : string) (rename : option (list (string * string)))
    (index : option string) : M Env value :=
  data <- invoke (EvRead path) (pj_read_json path) ;;
  data <- lift_outcome (rename_columns data rename) ;;
  data <- lift_outcome (set_index_if_given data index) ;;
  ret data.

(** [Cache.wrap(self, fn, path, cache, save_as_json=True,
    return_dataframe=False, index=None, rename=None, **kwargs)], the body
    under its decorator. *)
Definition wrap (fn : @query_fn Env) (path : string) (cache : value)
    (save_as_json return_dataframe : value) (index : option string)
    (rename : option (list (string * string)))
    (kwargs : list (string * value)) : M Env value :=
  (if is_True cache then
     json_data <- invoke (EvFetch [] kwargs) (fn [] kwargs) ;;
     if is_True save_as_json then
       invoke (EvWrite path json_data) (ju_write path json_data) ;;
       ret tt
     else
       df <- lift_outcome (pd_DataFrame json_data) ;;
       df <- lift_outcome (rename_columns df rename) ;;
       df <- lift_outcome (set_index_if_given df index) ;;
       invoke (EvWrite path df) (df_to_csv df path) ;;
       ret tt
   else ret tt) ;;
  (* read it back in *)
  if is_True save_as_json then
    if is_True return_dataframe then
      data <- invoke (EvRead path) (pj_read_json path) ;;
      data <- lift_outcome (rename_columns data rename) ;;
      data <- lift_outcome (set_index_if_given data index) ;;
      ret data
    else
      data <- invoke (EvJsonRead path) (ju_read path) ;;
      ret data
  else if is_True return_dataframe then
    data <- invoke (EvRead path) (pd_DataFrame_from_csv path) ;;
    ret data
  else
    raise (OtherError "ValueError"
             "save_as_json=False cannot be used with return_dataframe=False").

(** *** The hook bundles *)

(** The dict a bundle returns: each hook is a key of the dict or not. *)
Record HookDict : Type := {
  d_pre : kwarg (option transform);
  d_post : kwarg (option transform);
  d_reader : kwarg (option (@reader_fn Env));
  d_writer : kwarg (option (@writer_fn Env))
}.

(** [lambda p, x : x.to_csv(p)] *)
Definition to_csv_writer : @writer_fn Env := fun p x => df_to_csv x p.

Definition cache_csv_json : HookDict := {|
  d_pre := Absent;
  d_post := Given (Some df_to_dict);
  d_reader := Given (Some pd_DataFrame_from_csv);
  d_writer := Given (Some to_csv_writer)
|}.

Definition cache_csv_dataframe : HookDict := {|
  d_pre := Given (Some pd_DataFrame);
  d_post := Absent;
  d_reader := Given (Some pd_DataFrame_from_csv);
  d_writer := Given (Some to_csv_writer)
|}.

Definition nocache_dataframe : HookDict := {|
  d_pre := Absent;
  d_post := Given (Some pd_DataFrame);
  d_reader := Absent;
  d_writer := Absent
|}.

Definition nocache_json : HookDict := {|
  d_pre := Absent;
  d_post := Absent;
  d_reader := Absent;
  d_writer := Absent
|}.

Definition cache_json_dataframe : HookDict := {|
  d_pre := Absent;
  d_post := Absent;
  d_reader := Given (Some pj_read_json);
  d_writer := Given (Some ju_write)
|}.

Definition cache_json : HookDict := {|
  d_pre := Absent;
  d_post := Absent;
  d_reader := Given (Some ju_read);
  d_writer := Given (Some ju_write)
|}.

Definition cache_csv : HookDict := {|
  d_pre := Given (Some pd_DataFrame);
  d_post := Absent;
  d_reader := Given (Some pd_DataFrame_from_csv);
  d_writer := Given (Some to_csv_writer)
|}.

(** A call of the engine with a path, a strategy and the keys of a bundle:
    [path=..., query_strategy=..., **bundle]. *)
Definition call_with (path : kwarg string) (qs : kwarg value)
    (hooks : HookDict) (rest : list (string * value)) : @Kwargs Env := {|
  kw_path := path;
  kw_query_strategy := qs;
  kw_pre := d_pre hooks;
  kw_post := d_post hooks;
  kw_reader := d_reader hooks;
  kw_writer := d_writer hooks;
  kw_rest := rest
|}.

(** *** What the column labels become *)

(** One label through the pairs, in order. *)
Definition relabel (tuples : list (string * string)) (c : string) : string :=
  fold_left (fun c t => if String.eqb c (snd t) then fst t else c) tuples c.

(** Assigning the labels of a dataframe gives a dataframe with these labels,
    provided there are as many as before. *)
Definition columns_assignable : Prop :=
  forall d cols labels,
    df_columns d = Return cols -> length labels = length cols ->
    exists d', df_set_columns d labels = Return d'
               /\ df_columns d' = Return labels.
End Frames.

(* ------------------------------------------------------------------ *)
(** ** Small dataframes on the small file system *)

Module DemoFrames.
(** A dataframe: its column labels and its rows. *)
Definition frame (cols : list string) (rows : value) : value :=
  VDict [("columns", VList (map VStr cols)); ("rows", rows)].

Fixpoint labels (l : list value) : option (list string) :=
  match l with
  | [] => Some []
  | VStr s :: rest =>
      match labels rest with
      | Some r => Some (s :: r)
      | None => None
      end
  | _ => None
  end.

Definition no_frame {A} : outcome A :=
  Raise (OtherError "AttributeError" "not a dataframe").

(** The labels and the rows of a dataframe. *)
Definition parts (d : value) : option (list string * value) :=
  match d with
  | VDict [(k1, VList l); (k2, rows)] =>
      if String.eqb k1 "columns" && String.eqb k2 "rows" then
        match labels l with
        | Some cols => Some (cols, rows)
        | None => None
        end
      else None
  | _ => None
  end.

Definition columns (d : value) : outcome (list string) :=
  match parts d with
  | Some (cols, _) => Return cols
  | None => no_frame
  end.

Definition set_columns (d : value) (new_labels : list string)
  : outcome value :=
  match parts d with
  | Some (cols, rows) =>
      if Nat.eqb (length new_labels) (length cols)
      then Return (frame new_labels rows)
      else Raise (OtherError "ValueError" "Length mismatch")
  | None => no_frame
  end.

Definition set_index (d : value) (i : string) : outcome value :=
  match parts d with
  | Some (cols, rows) =>
      if existsb (String.eqb i) cols then
        Return (VDict [("columns",
                        VList (map VStr
                                 (filter (fun c => negb (String.eqb i c)) cols)));
                       ("rows", rows); ("index", VStr i)])
      else Raise (OtherError "KeyError" i)
  | None => no_frame
  end.

(** A one-row dataframe from a dict, an empty one from anything else. *)
Definition new_frame (data : value) : outcome value :=
  match data with
  | VDict items => Return (frame (map fst items) (VList [VList (map snd items)]))
  | _ => Return (frame [] data)
  end.

Definition to_dict (d : value) : outcome value :=
  match parts d with
  | Some (_, rows) => Return rows
  | None => no_frame
  end.

#[global] Instance pandas : Pandas Demo.fs := {
  pd_DataFrame := new_frame;
  pd_DataFrame_from_csv := Demo.read_file;
  pj_read_json := Demo.read_file;
  df_to_csv := fun x p => Demo.write_file p x;
  df_to_dict := to_dict;
  df_columns := columns;
  df_set_columns := set_columns;
  df_set_index := set_index;
  ju_write := Demo.write_file
}.

(** A dataframe with the columns id and name. *)
Definition cells : value :=
  frame ["id"; "name"] (VList [VList [VInt 1; VStr "a"]]).

(** A file system in which cells.csv holds it. *)
Definition cells_fs : Demo.fs := Demo.store "cells.csv" cells Demo.empty.
End DemoFrames.

(* ------------------------------------------------------------------ *)
(** ** More calls on the small file system *)

Module DemoCalls.



(** A writer on a path, no reader, and a strategy. *)
Definition write_only (path : string) (qs : value) : @Kwargs Demo.fs := {|
  kw_path := Given path;
  kw_query_strategy := Given qs;
  kw_pre := Absent;
  kw_post := Absent;
  kw_reader := Absent;
  kw_writer := Given (Some Demo.write_file);
  kw_rest := []
|}.

(** A manifest with one entry, and a file system that holds a manifest file
    and one that holds a file without the 'manifest' entry. *)
Definition one_entry : value := VDict [("cells", VStr "cells.csv")].
Definition manifest_fs : Demo.fs :=
  Demo.store "manifest.json" (VDict [("manifest", one_entry)]) Demo.empty.
Definition broken_fs : Demo.fs :=
  Demo.store "manifest.json" (VDict []) Demo.empty.

(** The dataframe made of the dict the query returns. *)
Definition table_frame : value :=
  DemoFrames.frame ["a"] (VList [VList [VInt 1]]).
End DemoCalls.
(* ------------------------------------------------------------------ *)
(** ** Python comparisons *)

Lemma str_eq_true (lit : string) (v : value) :
  str_eq lit v = true <-> v = VStr lit.
Proof.
  destruct v; simpl; split; intro H; try discriminate.
  - apply String.eqb_eq in H. now subst.
  - injection H as ->. apply String.eqb_refl.
Qed.

Lemma str_eq_false (lit : string) (v : value) :
  str_eq lit v = false <-> v <> VStr lit.
Proof.
  rewrite <- str_eq_true. destruct (str_eq lit v); split; congruence.
Qed.

Lemma is_None_true (v : value) : is_None v = true <-> v = VNone.
Proof. destruct v; simpl; split; congruence. Qed.

Lemma is_None_false (v : value) : is_None v = false <-> v <> VNone.
Proof. destruct v; simpl; split; congruence. Qed.

(* ------------------------------------------------------------------ *)
(** ** Laws of the computation monad *)

Section MonadLaws.
Context {Env : Type}.

Lemma run_eta {A} (r : run Env A) : Run (out r) (env' r) (trace r) = r.
Proof. now destruct r. Qed.

Lemma bind_ret_l {A B} (a : A) (k : A -> M Env B) (e : Env) :
  bind (ret a) k e = k a e.
Proof. unfold bind, ret; simpl. apply run_eta. Qed.

Lemma bind_raise {A B} (x : exn) (k : A -> M Env B) (e : Env) :
  bind (raise x) k e = raise x e.
Proof. reflexivity. Qed.

Lemma bind_observe {A B} (ev : event) (f : Env -> A) (k : A -> M Env B)
    (e : Env) :
  bind (observe ev f) k e = after_event ev (k (f e) e).
Proof. reflexivity. Qed.

Lemma bind_invoke {A B} (ev : event) (f : action Env A) (k : A -> M Env B)
    (e : Env) :
  bind (invoke ev f) k e
  = match f e with
    | (Return a, e1) => after_event ev (k a e1)
    | (Raise x, e1) => Run (Raise x) e1 [ev]
    end.
Proof. unfold bind, invoke. now destruct (f e) as [[a|x] e1]. Qed.

Lemma bind_apply_fn {A B} (ev : event) (o : outcome A) (k : A -> M Env B)
    (e : Env) :
  bind (apply_fn ev o) k e
  = match o with
    | Return a => after_event ev (k a e)
    | Raise x => Run (Raise x) e [ev]
    end.
Proof. unfold bind, apply_fn. now destruct o. Qed.

Lemma bind_lift_outcome {A B} (o : outcome A) (k : A -> M Env B) (e : Env) :
  bind (lift_outcome o) k e
  = match o with
    | Return a => k a e
    | Raise x => Run (Raise x) e []
    end.
Proof.
  unfold bind, lift_outcome. destruct o; cbn; [apply run_eta|reflexivity].
Qed.

Lemma bind_assoc {A B C} (m : M Env A) (k : A -> M Env B)
    (h : B -> M Env C) (e : Env) :
  bind (bind m k) h e = bind m (fun a => bind (k a) h) e.
Proof.
  unfold bind. destruct (m e) as [[a|x] e1 t]; simpl; [|reflexivity].
  destruct (k a e1) as [[b|y] e2 t']; simpl; [|reflexivity].
  now rewrite app_assoc.
Qed.

Lemma bind_ext {A B} (m : M Env A) (k k' : A -> M Env B) (e : Env) :
  (forall a e1, k a e1 = k' a e1) -> bind m k e = bind m k' e.
Proof.
  intro H. unfold bind. destruct (out (m e)); [|reflexivity].
  now rewrite H.
Qed.
End MonadLaws.

(* ------------------------------------------------------------------ *)
(** ** Case analysis on a run *)

Ltac unfold_engine :=
  unfold fetch_step, read_step, post_step, call_transform, load_data in *.

(** A scrutinee that evaluates to a constructor is replaced by its value,
    any other one is split into its cases. *)
Ltac evaluated t :=
  lazymatch t with
  | true => idtac
  | false => idtac
  | Some _ => idtac
  | None => idtac
  | Return _ => idtac
  | Raise _ => idtac
  | (_, _) => idtac
  | tt => idtac
  end.

Ltac break_match :=
  match goal with
  | |- context [match ?x with _ => _ end] =>
      lazymatch x with
      | context [match _ with _ => _ end] => fail
      | _ =>
          let x' := eval cbv in x in
          first [ evaluated x'; change x with x' | destruct x eqn:? ]
      end
  end.

(** One step of a run: the first computation of a sequence. *)
Ltac run_bind :=
  match goal with
  | |- context [bind (bind ?m ?k) ?h ?e] => rewrite (bind_assoc m k h e)
  | |- context [bind (ret ?a) ?k ?e] => rewrite (bind_ret_l a k e)
  | |- context [bind (raise ?x) ?k ?e] => rewrite (bind_raise x k e)
  | |- context [bind (observe ?ev ?f) ?k ?e] => rewrite (bind_observe ev f k e)
  | |- context [bind (invoke ?ev ?f) ?k ?e] => rewrite (bind_invoke ev f k e)
  | |- context [bind (apply_fn ?ev ?o) ?k ?e] =>
      rewrite (bind_apply_fn ev o k e)
  | |- context [bind (lift_outcome ?o) ?k ?e] =>
      rewrite (bind_lift_outcome o k e)
  end.

Ltac run_last :=
  lazymatch goal with
  | |- context [bind _ _] => fail
  | _ => progress unfold ret, raise, invoke, apply_fn, observe, lift_outcome
  end.

Ltac run_simpl :=
  cbv beta iota; cbn [out env' trace after_event app].

Ltac run_cases :=
  unfold_engine; run_simpl;
  repeat (first [run_bind | break_match | run_last]; run_simpl).

(** A run in which the calls named by [tac] have a known outcome. *)
Ltac run_with tac :=
  unfold_engine; run_simpl;
  repeat (first [run_bind | break_match | run_last]; tac; run_simpl).

(* ------------------------------------------------------------------ *)
(** ** The query-strategy engine *)

Section Engine.
Context {Env : Type} {P : Platform Env}.
Implicit Types (fn : @query_fn Env) (kw : @Kwargs Env) (e : Env).
Implicit Types (args : list value) (path : string) (qs : value).

Lemma normalize_lazy path e :
  normalize_strategy path (VStr "lazy") e
  = Run (Return (VStr (if os_path_exists path e then "file" else "create")))
        e [EvExists path].
Proof.
  unfold normalize_strategy, bind, observe. cbn.
  now destruct (os_path_exists path e).
Qed.

Lemma normalize_None path e :
  normalize_strategy path VNone e = Run (Return (VStr "pass_through")) e [].
Proof. reflexivity. Qed.

Lemma normalize_other path qs e :
  str_eq "lazy" qs = false -> is_None qs = false ->
  normalize_strategy path qs e = Run (Return qs) e [].
Proof.
  intros Hl Hn. unfold normalize_strategy. rewrite Hl. cbn. now rewrite Hn.
Qed.

(** The engine after its strategy has been resolved to [qs]. *)
Lemma cacher_resolved fn args kw e qs t :
  normalize_strategy (path_of kw) (strategy_of kw) e = Run (Return qs) e t ->
  cacher fn args kw e
  = let r :=
      (data <- fetch_step fn args (kw_rest kw) (path_of kw) (pre_of kw)
                          (writer_of kw) qs ;;
       data <- read_step (reader_of kw) (path_of kw) data ;;
       post_step (post_of kw) data) e in
    Run (out r) (env' r) (t ++ trace r).
Proof.
  intro H. unfold cacher.
  change (pop (kw_path kw) "data.csv") with (path_of kw).
  change (pop (kw_query_strategy kw) VNone) with (strategy_of kw).
  unfold bind at 1. rewrite H. reflexivity.
Qed.

Lemma cacher_steps fn args kw e qs t :
  normalize_strategy (path_of kw) (strategy_of kw) e = Run (Return qs) e t ->
  cacher fn args kw e
  = Run (out (steps fn args kw qs e)) (env' (steps fn args kw qs e))
        (t ++ trace (steps fn args kw qs e)).
Proof. intro H. now rewrite (cacher_resolved fn args kw H). Qed.

Lemma steps_no_exists fn args kw qs e :
  existsb is_exists (trace (steps fn args kw qs e)) = false.
Proof. unfold steps. run_cases; reflexivity. Qed.

(** C1.  Strategy normalization: 'lazy' resolves to 'file' exactly when the
    path exists in the environment of the call and to 'create' otherwise,
    None (given or absent) resolves to 'pass_through'; the existence check
    is the first call of the run, it leaves the environment as it is, and
    the rest of the run is the run of the resolved strategy, which makes
    no further existence check. *)
Theorem strategy_normalization fn args kw e :
  let path := path_of kw in
  let resolved := VStr (if os_path_exists path e then "file" else "create") in
  normalize_strategy path (VStr "lazy") e
    = Run (Return resolved) e [EvExists path]
  /\ (out (normalize_strategy path (VStr "lazy") e) = Return (VStr "file")
      <-> os_path_exists path e = true)
  /\ (out (normalize_strategy path (VStr "lazy") e) = Return (VStr "create")
      <-> os_path_exists path e = false)
  /\ normalize_strategy path VNone e = Run (Return (VStr "pass_through")) e []
  /\ cacher fn args (with_strategy kw (Given (VStr "lazy"))) e
      = after_event (EvExists path)
          (cacher fn args (with_strategy kw (Given resolved)) e)
  /\ existsb is_exists
        (trace (cacher fn args (with_strategy kw (Given resolved)) e)) = false
  /\ cacher fn args (with_strategy kw (Given VNone)) e
      = cacher fn args (with_strategy kw (Given (VStr "pass_through"))) e
  /\ cacher fn args (with_strategy kw Absent) e
      = cacher fn args (with_strategy kw (Given (VStr "pass_through"))) e.
Proof.
  intros path resolved.
  assert (Hres : normalize_strategy path resolved e = Run (Return resolved) e []).
  { subst resolved. destruct (os_path_exists path e); reflexivity. }
  split; [apply normalize_lazy|].
  split.
  { rewrite normalize_lazy. cbn.
    destruct (os_path_exists path e); split; intro H;
      solve [reflexivity | discriminate H]. }
  split.
  { rewrite normalize_lazy. cbn.
    destruct (os_path_exists path e); split; intro H;
      solve [reflexivity | discriminate H]. }
  split; [reflexivity|].
  split.
  { rewrite (@cacher_steps fn args (with_strategy kw (Given (VStr "lazy"))) e
               resolved [EvExists path]) by apply normalize_lazy.
    rewrite (@cacher_steps fn args (with_strategy kw (Given resolved)) e
               resolved []) by exact Hres.
    reflexivity. }
  split.
  { rewrite (@cacher_steps fn args (with_strategy kw (Given resolved)) e
               resolved []) by exact Hres.
    cbn. apply steps_no_exists. }
  split; reflexivity.
Qed.

(** The resolution always returns, leaves the environment alone and checks
    for the file under 'lazy' only. *)
Lemma normalize_total path qs e :
  exists v,
    normalize_strategy path qs e
    = Run (Return v) e (if str_eq "lazy" qs then [EvExists path] else []).
Proof.
  destruct (str_eq "lazy" qs) eqn:Hl.
  - apply str_eq_true in Hl. subst qs. rewrite normalize_lazy. eauto.
  - destruct (is_None qs) eqn:Hn.
    + apply is_None_true in Hn. subst qs. rewrite normalize_None. eauto.
    + rewrite normalize_other by assumption. eauto.
Qed.

Lemma normalize_out path qs e v :
  out (normalize_strategy path qs e) = Return v ->
  normalize_strategy path qs e
  = Run (Return v) e (if str_eq "lazy" qs then [EvExists path] else []).
Proof.
  destruct (normalize_total path qs e) as [v' Hv]. rewrite Hv. cbn.
  now intros [= ->].
Qed.

(** 'lazy' never resolves to 'pass_through'. *)
Lemma normalize_pass_through path qs e :
  out (normalize_strategy path qs e) = Return (VStr "pass_through") ->
  normalize_strategy path qs e = Run (Return (VStr "pass_through")) e [].
Proof.
  intro H. rewrite (normalize_out _ _ _ H).
  destruct (str_eq "lazy" qs) eqn:Hl; [|reflexivity].
  apply str_eq_true in Hl. subst qs. rewrite normalize_lazy in H. cbn in H.
  destruct (os_path_exists path e); discriminate H.
Qed.

Lemma cacher_out_steps fn args kw e qs :
  out (normalize_strategy (path_of kw) (strategy_of kw) e) = Return qs ->
  cacher fn args kw e
  = Run (out (steps fn args kw qs e)) (env' (steps fn args kw qs e))
        ((if str_eq "lazy" (strategy_of kw) then [EvExists (path_of kw)]
          else []) ++ trace (steps fn args kw qs e)).
Proof. intro H. apply cacher_steps. now apply normalize_out. Qed.

Lemma steps_file fn args kw e :
  steps fn args kw (VStr "file") e
  = (data <- read_step (reader_of kw) (path_of kw) None ;;
     post_step (post_of kw) data) e.
Proof. unfold steps, fetch_step. cbn. apply bind_ret_l. Qed.

Lemma steps_file_no_fetch fn args kw e :
  existsb is_fetch (trace (steps fn args kw (VStr "file") e)) = false.
Proof. rewrite steps_file. run_cases; reflexivity. Qed.

(** C3.  File-only: when the strategy resolves to 'file', the query
    function is not called, and the run is the same whatever the query
    function, its positional arguments and its keywords are.  The result
    comes from the reader and the post hook alone: with a reader [rd] that
    returns [d], the call returns [post d] (or [d] itself when post is None)
    after the calls [rd path] and [post d]; when the reader raises, so does
    the call; without a reader there is no data, and the call raises
    UnboundLocalError under a post hook and returns None without one. *)
Theorem file_strategy_never_fetches fn args kw e
    (Hfile : out (normalize_strategy (path_of kw) (strategy_of kw) e)
             = Return (VStr "file")) :
  let r := cacher fn args kw e in
  let checked :=
    if str_eq "lazy" (strategy_of kw) then [EvExists (path_of kw)] else [] in
  existsb is_fetch (trace r) = false
  /\ (forall fn' args' rest',
        cacher fn' args' (with_rest kw rest') e = r)
  /\ (forall (rd : @reader_fn Env) d e1,
        reader_of kw = Some rd ->
        rd (path_of kw) e = (Return d, e1) ->
        match post_of kw with
        | Some post =>
            r = Run (post d) e1
                  (checked ++ [EvRead (path_of kw); EvPost d])%list
        | None =>
            r = Run (Return d) e1 (checked ++ [EvRead (path_of kw)])%list
        end)
  /\ (forall (rd : @reader_fn Env) x e1,
        reader_of kw = Some rd ->
        rd (path_of kw) e = (Raise x, e1) ->
        r = Run (Raise x) e1 (checked ++ [EvRead (path_of kw)])%list)
  /\ (reader_of kw = None ->
      r = Run (match post_of kw with
               | Some _ => Raise (UnboundLocalError "data")
               | None => Return VNone
               end) e checked).
Proof.
  intros r checked. subst r checked.
  split; [|split; [|split; [|split]]].
  - rewrite (cacher_out_steps fn args kw e Hfile). cbn [trace].
    rewrite existsb_app, steps_file_no_fetch.
    now destruct (str_eq "lazy" (strategy_of kw)).
  - intros fn' args' rest'.
    rewrite (cacher_out_steps fn' args' (with_rest kw rest') e Hfile).
    rewrite (cacher_out_steps fn args kw e Hfile).
    now rewrite !steps_file.
  - intros rd d e1 Hrd Hread.
    rewrite (cacher_out_steps fn args kw e Hfile), steps_file, Hrd.
    destruct (post_of kw) as [post|];
      run_with ltac:(rewrite ?Hread); reflexivity.
  - intros rd x e1 Hrd Hread.
    rewrite (cacher_out_steps fn args kw e Hfile), steps_file, Hrd.
    run_with ltac:(rewrite ?Hread); reflexivity.
  - intros Hnone.
    rewrite (cacher_out_steps fn args kw e Hfile), steps_file, Hnone.
    run_with idtac; rewrite ?app_nil_r; reflexivity.
Qed.

(** C9.  Under 'pass_through' with a reader configured the query function
    is called and what it returns is dropped: once the query has returned,
    the reader is called on the path, and the call returns [post d] for the
    [d] the reader loaded ([d] itself when post is None).  A query or a
    reader that raises ends the call with its exception. *)
Theorem pass_through_reader_overrides fn args kw e (r : @reader_fn Env)
    (Hpass : out (normalize_strategy (path_of kw) (strategy_of kw) e)
             = Return (VStr "pass_through"))
    (Hreader : reader_of kw = Some r) :
  cacher fn args kw e
  = match fn args (kw_rest kw) e with
    | (Raise x, e1) => Run (Raise x) e1 [EvFetch args (kw_rest kw)]
    | (Return _, e1) =>
        match r (path_of kw) e1 with
        | (Raise x, e2) =>
            Run (Raise x) e2
                [EvFetch args (kw_rest kw); EvRead (path_of kw)]
        | (Return d, e2) =>
            match post_of kw with
            | Some post =>
                Run (post d) e2
                    [EvFetch args (kw_rest kw); EvRead (path_of kw); EvPost d]
            | None =>
                Run (Return d) e2
                    [EvFetch args (kw_rest kw); EvRead (path_of kw)]
            end
        end
    end.
Proof.
  rewrite (cacher_steps fn args kw (normalize_pass_through _ _ _ Hpass)).
  unfold steps. rewrite Hreader. cbn [app].
  rewrite run_eta. run_cases; reflexivity.
Qed.

Lemma steps_unrecognized fn args kw qs e :
  str_eq "pass_through" qs = false -> str_eq "file" qs = false ->
  steps fn args kw qs e = steps fn args kw (VStr "create") e.
Proof.
  intros Hp Hf. unfold steps, fetch_step. rewrite Hp, Hf. reflexivity.
Qed.

(** C10.  A strategy that is none of 'lazy', None, 'pass_through' and
    'file' runs as 'create' does: the same calls in the same order, the
    same environment afterwards, the same result. *)
Theorem unrecognized_strategy_runs_create fn args kw qs e
    (Hlazy : qs <> VStr "lazy") (Hnone : qs <> VNone)
    (Hpass : qs <> VStr "pass_through") (Hfile : qs <> VStr "file") :
  cacher fn args (with_strategy kw (Given qs)) e
  = cacher fn args (with_strategy kw (Given (VStr "create"))) e.
Proof.
  apply str_eq_false in Hlazy, Hpass, Hfile. apply is_None_false in Hnone.
  rewrite (@cacher_steps fn args (with_strategy kw (Given qs)) e qs [])
    by (now apply normalize_other).
  rewrite (@cacher_steps fn args (with_strategy kw (Given (VStr "create"))) e
             (VStr "create") []) by reflexivity.
  change (steps fn args (with_strategy kw (Given qs)) qs e)
    with (steps fn args kw qs e).
  change (steps fn args (with_strategy kw (Given (VStr "create")))
            (VStr "create") e)
    with (steps fn args kw (VStr "create") e).
  now rewrite (steps_unrecognized fn args kw qs e Hpass Hfile).
Qed.

(** *** Directory creation *)

Lemma existsb_middle (f : event -> bool) (l1 l2 : list event) (x : event) :
  f x = true -> existsb f (l1 ++ x :: l2)%list = true.
Proof.
  intro H. rewrite existsb_app. cbn. rewrite H.
  now rewrite orb_true_r.
Qed.

(** In a log that starts with calls other than writes and then [y], any
    write comes after [y]. *)
Lemma in_before_write (t : list event) (y : event) :
  existsb is_write t = false -> is_write y = false ->
  forall rest l1 x l2,
    is_write x = true -> (t ++ y :: rest = l1 ++ x :: l2)%list -> In y l1.
Proof.
  induction t as [|a t IH]; intros Ht Hy rest l1 x l2 Hx Heq.
  - destruct l1 as [|b l1]; cbn in Heq.
    + injection Heq as -> _. congruence.
    + injection Heq as -> _. now left.
  - cbn in Ht. apply orb_false_iff in Ht as [Ha Ht].
    destruct l1 as [|b l1]; cbn in Heq.
    + injection Heq as -> _. congruence.
    + injection Heq as _ Heq. right. exact (IH Ht Hy rest l1 x l2 Hx Heq).
Qed.

Lemma steps_make_dirs fn args kw qs e :
  existsb is_make_dirs (trace (steps fn args kw qs e))
  = create_branch qs && has_writer kw.
Proof.
  unfold steps, create_branch, has_writer, fetch_step.
  destruct (str_eq "pass_through" qs); [run_cases; reflexivity|].
  destruct (str_eq "file" qs); [run_cases; reflexivity|].
  destruct (writer_of kw); run_cases; reflexivity.
Qed.

Lemma steps_make_dirs_path fn args kw qs e p :
  In (EvMakeParentDirs p) (trace (steps fn args kw qs e)) -> p = path_of kw.
Proof.
  unfold steps. run_cases; intros H;
    repeat (destruct H as [H|H]; [try discriminate H; now injection H|]);
    try contradiction.
Qed.

Lemma steps_without_dirs_no_write fn args kw qs e :
  create_branch qs && has_writer kw = false ->
  existsb is_write (trace (steps fn args kw qs e)) = false.
Proof.
  unfold steps, create_branch, has_writer, fetch_step.
  destruct (str_eq "pass_through" qs); [intros _; run_cases; reflexivity|].
  destruct (str_eq "file" qs); [intros _; run_cases; reflexivity|].
  destruct (writer_of kw); [discriminate|].
  intros _; run_cases; reflexivity.
Qed.

Lemma steps_with_dirs_first fn args kw qs e :
  create_branch qs && has_writer kw = true ->
  exists rest,
    trace (steps fn args kw qs e) = EvMakeParentDirs (path_of kw) :: rest.
Proof.
  unfold steps, create_branch, has_writer, fetch_step.
  destruct (str_eq "pass_through" qs); [discriminate|].
  destruct (str_eq "file" qs); [discriminate|].
  destruct (writer_of kw); [|discriminate].
  intros _; run_cases; eauto.
Qed.

(** C5.  Directory creation: a run of the engine calls
    Manifest.safe_make_parent_dirs exactly when its resolved strategy is
    neither 'pass_through' nor 'file' and a writer is configured, and it
    makes no other directory-creating call; the call is for the parent of
    the target path, and every call of the writer comes after it. *)
Theorem parent_dirs_only_on_create_with_writer fn args kw e qs
    (Hqs : out (normalize_strategy (path_of kw) (strategy_of kw) e)
           = Return qs) :
  let r := cacher fn args kw e in
  existsb is_make_dirs (trace r) = create_branch qs && has_writer kw
  /\ (forall p, In (EvMakeParentDirs p) (trace r) -> p = path_of kw)
  /\ (forall l1 p d l2,
        trace r = (l1 ++ EvWrite p d :: l2)%list ->
        In (EvMakeParentDirs (path_of kw)) l1).
Proof.
  intro r. subst r. rewrite (cacher_out_steps fn args kw e Hqs). cbn [trace].
  set (pre := if str_eq "lazy" (strategy_of kw) then [EvExists (path_of kw)]
              else []).
  assert (Hpre_w : existsb is_write pre = false)
    by (subst pre; now destruct (str_eq "lazy" (strategy_of kw))).
  assert (Hpre_d : existsb is_make_dirs pre = false)
    by (subst pre; now destruct (str_eq "lazy" (strategy_of kw))).
  split; [|split].
  - now rewrite existsb_app, Hpre_d, steps_make_dirs.
  - intros p Hin. apply in_app_or in Hin as [Hin|Hin].
    + subst pre. destruct (str_eq "lazy" (strategy_of kw)); cbn in Hin;
        [destruct Hin as [Hin|[]]; discriminate Hin | contradiction].
    + exact (steps_make_dirs_path fn args kw qs e p Hin).
  - intros l1 p d l2 Heq.
    destruct (create_branch qs && has_writer kw) eqn:Hbranch.
    + destruct (steps_with_dirs_first fn args kw qs e Hbranch) as [rest Hrest].
      rewrite Hrest in Heq.
      now apply (in_before_write pre (EvMakeParentDirs (path_of kw))
                   Hpre_w eq_refl rest l1 (EvWrite p d) l2).
    + pose proof (steps_without_dirs_no_write fn args kw qs e Hbranch) as Hno.
      assert (Hyes : existsb is_write (pre ++ trace (steps fn args kw qs e))%list
                     = true)
        by (rewrite Heq; now apply existsb_middle).
      rewrite existsb_app, Hpre_w, Hno in Hyes. discriminate Hyes.
Qed.

(** *** Round trip through the file *)

Lemma post_step_env (post : option transform) (data : option value) e e1 :
  post_step post data e1
  = Run (out (post_step post data e)) e1 (trace (post_step post data e)).
Proof. run_cases; reflexivity. Qed.

(** A 'create' run with writer and reader that returns has written some
    [x], read some [d] back and returns what the post step makes of [d]. *)
Lemma steps_create_returns fn args kw e v e1 t
    (w : @writer_fn Env) (r : @reader_fn Env) :
  writer_of kw = Some w -> reader_of kw = Some r ->
  steps fn args kw (VStr "create") e = Run (Return v) e1 t ->
  exists x eb u ec d,
    w (path_of kw) x eb = (Return u, ec)
    /\ r (path_of kw) ec = (Return d, e1)
    /\ out (post_step (post_of kw) (Some d) e1) = Return v.
Proof.
  intros Hw Hr. unfold steps. rewrite Hw, Hr.
  run_cases; intro H; try discriminate H;
    injection H as Ho He Ht; subst;
    do 5 eexists; (split; [eassumption|split; [eassumption|]]);
    run_cases; cbn; congruence.
Qed.

Lemma steps_file_reads fn args kw e (r : @reader_fn Env) d e2 :
  reader_of kw = Some r -> r (path_of kw) e = (Return d, e2) ->
  out (steps fn args kw (VStr "file") e)
  = out (post_step (post_of kw) (Some d) e2).
Proof.
  intros Hr Hread. rewrite steps_file, Hr.
  unfold read_step, bind, invoke, ret. rewrite Hread. reflexivity.
Qed.

(** C6.  Round trip: with a writer and a reader configured such that the
    reader reproduces what the writer stored under the path, a call with
    'create' that returns [v], followed by a call with 'file' on the same
    path with the same hooks, returns [v] again, whatever the query
    function of the second call is. *)
Theorem create_then_file_round_trip fn fn' args args' kw rest'
    (w : @writer_fn Env) (r : @reader_fn Env) e v e1 t
    (Hw : writer_of kw = Some w) (Hr : reader_of kw = Some r)
    (Hrt : reproduces w r (path_of kw))
    (Hfirst : cacher fn args (with_strategy kw (Given (VStr "create"))) e
              = Run (Return v) e1 t) :
  out (cacher fn' args'
         (with_strategy (with_rest kw rest') (Given (VStr "file"))) e1)
  = Return v.
Proof.
  rewrite (@cacher_steps fn args (with_strategy kw (Given (VStr "create"))) e
             (VStr "create") []) in Hfirst by reflexivity.
  cbn [app] in Hfirst. rewrite run_eta in Hfirst.
  change (steps fn args (with_strategy kw (Given (VStr "create")))
            (VStr "create") e)
    with (steps fn args kw (VStr "create") e) in Hfirst.
  destruct (@steps_create_returns fn args kw e v e1 t w r Hw Hr Hfirst)
    as (x & eb & u & ec & d & Hwrite & Hread & Hpost).
  destruct Hrt as (holds & Hstore & Hload).
  destruct (Hload x ec (Hstore x eb u ec Hwrite)) as (e1' & Hread' & Hheld).
  rewrite Hread in Hread'. injection Hread' as -> ->.
  destruct (Hload x e1' Hheld) as (e2 & Hagain & _).
  rewrite (@cacher_steps fn' args'
             (with_strategy (with_rest kw rest') (Given (VStr "file"))) e1'
             (VStr "file") []) by reflexivity.
  cbn [out].
  rewrite (@steps_file_reads fn' args'
             (with_strategy (with_rest kw rest') (Given (VStr "file")))
             e1' r x e2 Hr Hagain).
  change (post_of (with_strategy (with_rest kw rest') (Given (VStr "file"))))
    with (post_of kw).
  rewrite (post_step_env (post_of kw) (Some x) e1' e2). exact Hpost.
Qed.

(** *** Pass-through and the runs that produce no data *)

(** Without a reader, a 'pass_through' run is the query followed by the
    post step: no writer call, no reader call, no directory creation. *)
Lemma pass_through_without_reader fn args kw e
    (Hpass : out (normalize_strategy (path_of kw) (strategy_of kw) e)
             = Return (VStr "pass_through"))
    (Hreader : reader_of kw = None) :
  cacher fn args kw e
  = (data <- invoke (EvFetch args (kw_rest kw)) (fn args (kw_rest kw)) ;;
     post_step (post_of kw) (Some data)) e.
Proof.
  rewrite (cacher_steps fn args kw (normalize_pass_through _ _ _ Hpass)).
  unfold steps. rewrite Hreader. cbn [app].
  rewrite run_eta. run_cases; reflexivity.
Qed.

(** C4.  A run that produces no data and is given no post hook: with
    strategy 'file' and no reader the default post hook is applied to the
    unbound local [data] and the call raises UnboundLocalError; so does
    'create' with neither writer nor reader once the query has returned.
    Only when post is given as None does the call return None. *)
Theorem no_data_default_post_raises fn args path rest e :
  cacher fn args (bare_call path (VStr "file") rest) e
    = Run (Raise (UnboundLocalError "data")) e []
  /\ (forall d e1,
        fn args rest e = (Return d, e1) ->
        cacher fn args (bare_call path (VStr "create") rest) e
        = Run (Raise (UnboundLocalError "data")) e1 [EvFetch args rest])
  /\ cacher fn args
        (with_post (bare_call path (VStr "file") rest) (Given None)) e
      = Run (Return VNone) e [].
Proof.
  split; [reflexivity|]. split; [|reflexivity].
  intros d e1 Hfn.
  rewrite (@cacher_steps fn args (bare_call path (VStr "create") rest) e
             (VStr "create") []) by reflexivity.
  unfold steps, fetch_step, read_step, post_step. cbn.
  unfold bind, invoke. cbn. rewrite Hfn. reflexivity.
Qed.
End Engine.

(** C2.  Pass-through with a reader configured: on a file system where
    data.csv holds an older result, a call with no strategy and a reader
    calls the query, then the reader, and returns the older result from the
    file instead of what the query returned. *)
Theorem pass_through_with_reader_reads_file :
  cacher Demo.fetch_table [] Demo.reader_only Demo.stale_fs
    = Run (Return Demo.stale) Demo.stale_fs
          [EvFetch [] []; EvRead "data.csv"; EvPost Demo.stale]
  /\ existsb is_read
       (trace (cacher Demo.fetch_table [] Demo.reader_only Demo.stale_fs))
     = true
  /\ out (cacher Demo.fetch_table [] Demo.reader_only Demo.stale_fs)
     <> Return Demo.table.
Proof.
  split; [reflexivity|]. split; [reflexivity|]. discriminate.
Qed.

(* ------------------------------------------------------------------ *)
(** ** The facade *)

Section FacadeFacts.
Context {Env : Type} {P : Platform Env}.

(** C7.  Path resolution: with the cache flag off the result is None
    whatever the file name and the key are; with the flag on, a file name
    given by the caller (a string that is not empty) is returned as it is,
    and the manifest is not consulted. *)
Theorem get_cache_path_precedence (m : option Manifest) (file_name : value)
    (c : ascii) (s : string) (manifest_key : string) (args : list value)
    (e : Env) :
  get_cache_path {| cache := false; manifest := m |} file_name
                 manifest_key args e
    = Run (Return VNone) e []
  /\ get_cache_path {| cache := true; manifest := m |} (VStr (String c s))
                    manifest_key args e
    = Run (Return (VStr (String c s))) e [].
Proof. split; reflexivity. Qed.

(** The base class has no default manifest. *)
Lemma build_manifest_raises (file_name : string) (e : Env) :
  build_manifest file_name e
  = (Raise (Exception
              "This function must be defined in the appropriate subclass"),
     e).
Proof. reflexivity. Qed.

(** C8.  Loading a manifest whose file does not exist: the parent
    directory is created (when the file name has one), then the builder of
    the class is called on the file name, then the file is read and the
    manifest built from its 'manifest' entry; this is what constructing
    the facade does.  The builder of the base class raises for every file
    name, so that on the base class the load stops there. *)
Theorem load_manifest_builds_missing_manifest {C : CacheClass}
    (self : Cache) (file_name : string) (e e1 e2 e3 e4 : Env)
    (doc spec : value) (m : Manifest)
    (Hmissing : os_path_exists file_name e = false)
    (Hmkdir : if String.eqb (os_path_dirname file_name) "" then e1 = e
              else Manifest_safe_mkdir (os_path_dirname file_name) e
                   = (Return tt, e1))
    (Hbuild : self_build_manifest file_name e1 = (Return tt, e2))
    (Hread : ju_read file_name e2 = (Return doc, e3))
    (Hspec : getitem doc "manifest" = Return spec)
    (Hinit : Manifest_init spec (os_path_dirname file_name) e3
             = (Return m, e4)) :
  let dirname := os_path_dirname file_name in
  let made := if String.eqb dirname "" then [] else [EvMkdir dirname] in
  load_manifest self (Some file_name) e
    = Run (Return {| cache := cache self; manifest := Some m |}) e4
          (EvExists file_name :: made
           ++ [EvBuildManifest file_name; EvJsonRead file_name;
               EvManifestInit dirname])
  /\ Cache_init (Some file_name) (cache self) e
      = load_manifest self (Some file_name) e
  /\ (forall (f : string) (e0 : Env),
        build_manifest f e0
        = (Raise (Exception
                    "This function must be defined in the appropriate subclass"),
           e0))
  /\ @load_manifest Env P Cache_base self (Some file_name) e
      = Run (Raise (Exception
                      "This function must be defined in the appropriate subclass"))
            e1 (EvExists file_name :: made ++ [EvBuildManifest file_name]).
Proof.
  intros dirname made. subst dirname made.
  split; [|split; [reflexivity|split; [reflexivity|]]].
  - unfold load_manifest, bind, observe, invoke, lift_outcome, ret.
    cbn. rewrite Hmissing. cbn.
    destruct (String.eqb (os_path_dirname file_name) ""); cbn.
    + subst e1. rewrite Hbuild. cbn. rewrite Hread. cbn. rewrite Hspec. cbn.
      rewrite Hinit. reflexivity.
    + rewrite Hmkdir. cbn. rewrite Hbuild. cbn. rewrite Hread. cbn.
      rewrite Hspec. cbn. rewrite Hinit. reflexivity.
  - unfold load_manifest, bind, observe, invoke, lift_outcome, ret.
    cbn. rewrite Hmissing. cbn.
    destruct (String.eqb (os_path_dirname file_name) ""); cbn.
    + subst e1. reflexivity.
    + rewrite Hmkdir. reflexivity.
Qed.
End FacadeFacts.

(* ------------------------------------------------------------------ *)
(** ** The theorems at work on the small file system *)

Lemma write_then_read_reproduces (path : string) :
  reproduces Demo.write_file Demo.read_file path.
Proof.
  exists (fun x e => Demo.lookup path e = Some x). split.
  - intros x e u e1 H. unfold Demo.write_file in H. injection H as _ <-.
    unfold Demo.lookup, Demo.store. cbn. now rewrite String.eqb_refl.
  - intros x e H. exists e. unfold Demo.read_file. now rewrite H.
Qed.

(** 'lazy' on a path that exists: the file is read and the hook that wraps
    in a list is applied to what was read; the failing query is not
    reached. *)
Lemma file_strategy_never_fetches_witness :
  cacher Demo.fetch_fails [] (Demo.cached "data.csv" (VStr "lazy"))
    Demo.stale_fs
  = Run (Return (VList [Demo.stale])) Demo.stale_fs
        [EvExists "data.csv"; EvRead "data.csv"; EvPost Demo.stale].
Proof.
  exact (proj1 (proj2 (proj2
           (@file_strategy_never_fetches Demo.fs Demo.platform
              Demo.fetch_fails []
              (Demo.cached "data.csv" (VStr "lazy")) Demo.stale_fs
              eq_refl)))
           Demo.read_file Demo.stale Demo.stale_fs eq_refl eq_refl).
Defined.

(** 'create' with a writer: the parent directory is made. *)
Lemma parent_dirs_only_on_create_with_writer_witness :
  existsb is_make_dirs
    (trace (cacher Demo.fetch_table []
              (Demo.cached "cache/cells.csv" (VStr "create")) Demo.empty))
  = true.
Proof.
  exact (proj1 (@parent_dirs_only_on_create_with_writer Demo.fs Demo.platform
                  Demo.fetch_table []
                  (Demo.cached "cache/cells.csv" (VStr "create")) Demo.empty
                  (VStr "create") eq_refl)).
Defined.

(** 'create' and then 'file' on cells.csv: the second call, whose query
    fails if called, returns what the first returned. *)
Lemma create_then_file_round_trip_witness :
  out (cacher Demo.fetch_fails []
         (with_strategy (with_rest (Demo.cached "cells.csv" VNone) [])
            (Given (VStr "file")))
         (Demo.store "cells.csv" Demo.table Demo.empty))
  = Return (VList [Demo.table]).
Proof.
  exact (@create_then_file_round_trip Demo.fs Demo.platform
           Demo.fetch_table Demo.fetch_fails [] []
           (Demo.cached "cells.csv" VNone) []
           Demo.write_file Demo.read_file Demo.empty
           (VList [Demo.table])
           (Demo.store "cells.csv" Demo.table Demo.empty)
           [EvMakeParentDirs "cells.csv"; EvFetch [] []; EvPre Demo.table;
            EvWrite "cells.csv" Demo.table; EvRead "cells.csv";
            EvPost Demo.table]
           eq_refl eq_refl (write_then_read_reproduces "cells.csv") eq_refl).
Defined.

(** Constructing the facade of the subclass on a manifest that is not
    there. *)
Lemma load_manifest_builds_missing_manifest_witness :
  load_manifest {| cache := true; manifest := None |}
    (Some "cache/manifest.json") Demo.empty
  = Run (Return {| cache := true;
                   manifest := Some (VList [], "cache") |})
        (Demo.store "cache/manifest.json" Demo.empty_manifest
           (Demo.add_dir "cache" Demo.empty))
        [EvExists "cache/manifest.json"; EvMkdir "cache";
         EvBuildManifest "cache/manifest.json";
         EvJsonRead "cache/manifest.json"; EvManifestInit "cache"].
Proof.
  exact (proj1 (@load_manifest_builds_missing_manifest Demo.fs Demo.platform
                  Demo.subclass {| cache := true; manifest := None |}
                  "cache/manifest.json" Demo.empty
                  (Demo.add_dir "cache" Demo.empty)
                  (Demo.store "cache/manifest.json" Demo.empty_manifest
                     (Demo.add_dir "cache" Demo.empty))
                  (Demo.store "cache/manifest.json" Demo.empty_manifest
                     (Demo.add_dir "cache" Demo.empty))
                  (Demo.store "cache/manifest.json" Demo.empty_manifest
                     (Demo.add_dir "cache" Demo.empty))
                  Demo.empty_manifest (VList []) (VList [], "cache")
                  eq_refl eq_refl eq_refl eq_refl eq_refl eq_refl)).
Defined.

(** No strategy, a reader and the hook that wraps in a list: the older
    result in the file comes back, wrapped. *)
Lemma pass_through_reader_overrides_witness :
  cacher Demo.fetch_table []
    (with_post Demo.reader_only (Given (Some Demo.wrap_list))) Demo.stale_fs
  = Run (Return (VList [Demo.stale])) Demo.stale_fs
        [EvFetch [] []; EvRead "data.csv"; EvPost Demo.stale].
Proof.
  exact (@pass_through_reader_overrides Demo.fs Demo.platform
           Demo.fetch_table []
           (with_post Demo.reader_only (Given (Some Demo.wrap_list)))
           Demo.stale_fs Demo.read_file eq_refl eq_refl).
Defined.

(** The strategy 'bogus'. *)
Lemma unrecognized_strategy_runs_create_witness :
  cacher Demo.fetch_table []
    (with_strategy (Demo.cached "cells.csv" VNone) (Given (VStr "bogus")))
    Demo.empty
  = cacher Demo.fetch_table []
      (with_strategy (Demo.cached "cells.csv" VNone) (Given (VStr "create")))
      Demo.empty.
Proof.
  apply (@unrecognized_strategy_runs_create Demo.fs Demo.platform
           Demo.fetch_table [] (Demo.cached "cells.csv" VNone)
           (VStr "bogus") Demo.empty);
    discriminate.
Defined.

(* ------------------------------------------------------------------ *)
(** ** Runs of the engine on the small file system *)

(** No strategy, no hooks: the result of the query, nothing written. *)
Example run_without_cache :
  cacher Demo.fetch_table [] Demo.no_kwargs Demo.empty
  = Run (Return Demo.table) Demo.empty [EvFetch [] []; EvPost Demo.table].
Proof. reflexivity. Qed.

(** 'create' with writer and reader: the file is there afterwards. *)
Example run_create :
  cacher Demo.fetch_table [] (Demo.cached "cache/cells.csv" (VStr "create"))
    Demo.empty
  = Run (Return (VList [Demo.table]))
        (Demo.store "cache/cells.csv" Demo.table
           (Demo.add_dir "cache" Demo.empty))
        [EvMakeParentDirs "cache/cells.csv"; EvFetch [] [];
         EvPre Demo.table; EvWrite "cache/cells.csv" Demo.table;
         EvRead "cache/cells.csv"; EvPost Demo.table].
Proof. reflexivity. Qed.

(** 'lazy' on that file system reads the file and leaves the query alone. *)
Example run_lazy_present :
  cacher Demo.fetch_fails [] (Demo.cached "cache/cells.csv" (VStr "lazy"))
    (Demo.store "cache/cells.csv" Demo.table (Demo.add_dir "cache" Demo.empty))
  = Run (Return (VList [Demo.table]))
        (Demo.store "cache/cells.csv" Demo.table
           (Demo.add_dir "cache" Demo.empty))
        [EvExists "cache/cells.csv"; EvRead "cache/cells.csv";
         EvPost Demo.table].
Proof. reflexivity. Qed.

(** 'lazy' on the empty file system runs as 'create'. *)
Example run_lazy_absent :
  trace (cacher Demo.fetch_table []
           (Demo.cached "cache/cells.csv" (VStr "lazy")) Demo.empty)
  = EvExists "cache/cells.csv"
    :: trace (cacher Demo.fetch_table []
                (Demo.cached "cache/cells.csv" (VStr "create")) Demo.empty).
Proof. reflexivity. Qed.

(** posixpath.dirname on a few paths. *)
Example dirname_samples :
  Demo.dirname "cache/cells.csv" = "cache"
  /\ Demo.dirname "cells.csv" = ""
  /\ Demo.dirname "/cells.csv" = "/"
  /\ Demo.dirname "a/b/" = "a/b".
Proof. repeat split. Qed.

(* ------------------------------------------------------------------ *)
(** ** More on the engine: failures, order and number of calls *)

Section EngineMore.
Context {Env : Type} {P : Platform Env}.
Implicit Types (fn : @query_fn Env) (kw : @Kwargs Env) (e : Env).
Implicit Types (args : list value) (path : string) (qs : value).

Lemma bind_ret_r {A} (m : M Env A) e : bind m (fun a => ret a) e = m e.
Proof.
  unfold bind, ret. destruct (m e) as [[a|x] e1 t]; cbn; [|reflexivity].
  now rewrite app_nil_r.
Qed.

Lemma bind_run {A B} (m : M Env A) (k : A -> M Env B) e a e1 t :
  m e = Run (Return a) e1 t -> bind m k e = after_events t (k a e1).
Proof. intro H. unfold bind. now rewrite H. Qed.

Lemma after_events_app {A} (t1 t2 : list event) (r : run Env A) :
  after_events t1 (after_events t2 r) = after_events (t1 ++ t2) r.
Proof. unfold after_events. cbn. now rewrite app_assoc. Qed.

Lemma cacher_after_events fn args kw e qs :
  out (normalize_strategy (path_of kw) (strategy_of kw) e) = Return qs ->
  cacher fn args kw e = after_events (check_events kw) (steps fn args kw qs e).
Proof. intro H. exact (cacher_out_steps fn args kw e H). Qed.



Lemma create_branch_true qs :
  create_branch qs = true ->
  str_eq "pass_through" qs = false /\ str_eq "file" qs = false.
Proof.
  unfold create_branch.
  destruct (str_eq "pass_through" qs), (str_eq "file" qs); cbn;
    intro H; (discriminate H || now split).
Qed.


(** X3.  'create' with a writer and no reader: the writer is called on what
    pre made of the query's result, what the writer returns is ignored, and
    the call returns what the post step makes of that same pre-processed
    data. *)
Theorem create_without_reader_returns_written fn args kw e qs
    (w : @writer_fn Env) (p : transform) d d' u ea eb ec
    (Hqs : out (normalize_strategy (path_of kw) (strategy_of kw) e)
           = Return qs)
    (Hbranch : create_branch qs = true)
    (Hw : writer_of kw = Some w)
    (Hr : reader_of kw = None)
    (Hp : pre_of kw = Some p)
    (Hdirs : Manifest_safe_make_parent_dirs (path_of kw) e = (Return tt, ea))
    (Hfn : fn args (kw_rest kw) ea = (Return d, eb))
    (Hpre : p d = Return d')
    (Hwrite : w (path_of kw) d' eb = (Return u, ec)) :
  cacher fn args kw e
  = after_events
      (check_events kw
       ++ [EvMakeParentDirs (path_of kw); EvFetch args (kw_rest kw);
           EvPre d; EvWrite (path_of kw) d'])
      (post_step (post_of kw) (Some d') ec).
Proof.
  rewrite (cacher_after_events fn args kw e Hqs).
  destruct (create_branch_true qs Hbranch) as [Hpt Hf].
  unfold steps, fetch_step, read_step, call_transform.
  rewrite Hpt, Hf, Hw, Hr, Hp. cbn [negb]. run_simpl.
  repeat (run_bind; rewrite ?Hdirs, ?Hfn, ?Hpre, ?Hwrite; run_simpl).
  unfold after_events. cbn [out env' trace]. now rewrite <- app_assoc.
Qed.

(** X4.  'create' without a writer: the query is called for its effects
    only.  What it returns is dropped, pre is not called, and the run goes
    on with the reader step on unbound data. *)
Theorem create_without_writer_drops_result fn args kw e qs d e1
    (Hqs : out (normalize_strategy (path_of kw) (strategy_of kw) e)
           = Return qs)
    (Hbranch : create_branch qs = true)
    (Hw : writer_of kw = None)
    (Hfn : fn args (kw_rest kw) e = (Return d, e1)) :
  cacher fn args kw e
  = after_events (check_events kw ++ [EvFetch args (kw_rest kw)])
      ((data <- read_step (reader_of kw) (path_of kw) None ;;
        post_step (post_of kw) data) e1).
Proof.
  rewrite (cacher_after_events fn args kw e Hqs).
  destruct (create_branch_true qs Hbranch) as [Hpt Hf].
  unfold steps, fetch_step. rewrite Hpt, Hf, Hw. cbn [negb].
  rewrite (@bind_run _ _ _ _ e None e1 [EvFetch args (kw_rest kw)]).
  - apply after_events_app.
  - unfold bind, invoke, ret. now rewrite Hfn.
Qed.

(** X5.  The pre hook matters on one branch only: unless the strategy takes
    the 'create' branch and a writer is configured, the run is the same for
    every pre hook, None included. *)
Theorem pre_only_on_create_with_writer fn args kw e qs
    (p : kwarg (option transform))
    (Hqs : out (normalize_strategy (path_of kw) (strategy_of kw) e)
           = Return qs)
    (Hother : create_branch qs && has_writer kw = false) :
  cacher fn args (with_pre kw p) e = cacher fn args kw e.
Proof.
  rewrite (cacher_after_events fn args kw e Hqs).
  rewrite (cacher_after_events fn args (with_pre kw p) e Hqs).
  change (check_events (with_pre kw p)) with (check_events kw).
  f_equal. unfold steps, fetch_step.
  change (writer_of (with_pre kw p)) with (writer_of kw).
  change (reader_of (with_pre kw p)) with (reader_of kw).
  change (post_of (with_pre kw p)) with (post_of kw).
  change (path_of (with_pre kw p)) with (path_of kw).
  change (kw_rest (with_pre kw p)) with (kw_rest kw).
  unfold create_branch, has_writer in Hother.
  destruct (str_eq "pass_through" qs); [reflexivity|].
  destruct (str_eq "file" qs); [reflexivity|].
  destruct (writer_of kw); [discriminate Hother|reflexivity].
Qed.

(** X6.  pre given as None on the 'create' branch with a writer: once the
    directories are made and the query has returned, the call raises
    TypeError; nothing is written, read or post-processed. *)
Theorem pre_None_raises_before_write fn args kw e qs (w : @writer_fn Env)
    d ea eb
    (Hqs : out (normalize_strategy (path_of kw) (strategy_of kw) e)
           = Return qs)
    (Hbranch : create_branch qs = true)
    (Hw : writer_of kw = Some w)
    (Hdirs : Manifest_safe_make_parent_dirs (path_of kw) e = (Return tt, ea))
    (Hfn : fn args (kw_rest kw) ea = (Return d, eb)) :
  cacher fn args (with_pre kw (Given None)) e
  = Run (Raise (TypeError "'NoneType' object is not callable")) eb
        (check_events kw
         ++ [EvMakeParentDirs (path_of kw); EvFetch args (kw_rest kw)]).
Proof.
  rewrite (cacher_after_events fn args (with_pre kw (Given None)) e Hqs).
  change (check_events (with_pre kw (Given None))) with (check_events kw).
  destruct (create_branch_true qs Hbranch) as [Hpt Hf].
  unfold steps, fetch_step.
  change (writer_of (with_pre kw (Given None))) with (writer_of kw).
  change (path_of (with_pre kw (Given None))) with (path_of kw).
  change (kw_rest (with_pre kw (Given None))) with (kw_rest kw).
  change (pre_of (with_pre kw (Given None))) with (@None transform).
  rewrite Hpt, Hf, Hw. cbn [negb]. unfold call_transform. run_simpl.
  repeat (run_bind; rewrite ?Hdirs, ?Hfn; run_simpl).
  unfold raise, after_events. cbn [out env' trace app]. reflexivity.
Qed.

(** X7.  In one run the engine makes each of its calls at most once: the
    existence check, the directory creation, the query, pre, the writer, the
    reader and post. *)
Theorem each_call_at_most_once fn args kw e :
  let log := trace (cacher fn args kw e) in
  count is_exists log <= 1
  /\ count is_make_dirs log <= 1
  /\ count is_fetch log <= 1
  /\ count is_pre log <= 1
  /\ count is_write log <= 1
  /\ count is_read log <= 1
  /\ count is_post log <= 1.
Proof.
  intro log. subst log.
  destruct (normalize_total (path_of kw) (strategy_of kw) e) as [qs Hqs].
  rewrite (cacher_steps fn args kw Hqs). cbn [trace]. unfold count.
  rewrite !filter_app, !length_app.
  assert (Hsteps :
    length (filter is_exists (trace (steps fn args kw qs e))) = 0
    /\ length (filter is_make_dirs (trace (steps fn args kw qs e))) <= 1
    /\ length (filter is_fetch (trace (steps fn args kw qs e))) <= 1
    /\ length (filter is_pre (trace (steps fn args kw qs e))) <= 1
    /\ length (filter is_write (trace (steps fn args kw qs e))) <= 1
    /\ length (filter is_read (trace (steps fn args kw qs e))) <= 1
    /\ length (filter is_post (trace (steps fn args kw qs e))) <= 1).
  { unfold steps. run_cases; repeat split; repeat constructor. }
  destruct Hsteps as (-> & H1 & H2 & H3 & H4 & H5 & H6).
  destruct (str_eq "lazy" (strategy_of kw)); cbn;
    repeat split; try assumption; repeat constructor.
Qed.

Lemma before_post_no_post fn args kw qs e :
  existsb is_post
    (trace ((data <- fetch_step fn args (kw_rest kw) (path_of kw) (pre_of kw)
                                (writer_of kw) qs ;;
             read_step (reader_of kw) (path_of kw) data) e)) = false.
Proof. run_cases; reflexivity. Qed.

(** X8.  A call with a post hook that returns has applied the hook exactly
    once, as the last call of the run, and returns what the hook returned. *)
Theorem post_is_applied_last fn args kw e (p : transform) v
    (Hp : post_of kw = Some p)
    (Hret : out (cacher fn args kw e) = Return v) :
  exists t d,
    trace (cacher fn args kw e) = (t ++ [EvPost d])%list
    /\ p d = Return v
    /\ existsb is_post t = false.
Proof.
  destruct (normalize_total (path_of kw) (strategy_of kw) e) as [qs Hqs].
  rewrite (cacher_steps fn args kw Hqs) in *. cbn [out trace] in *.
  unfold steps in *. rewrite <- bind_assoc in *.
  pose proof (before_post_no_post fn args kw qs e) as Hquiet.
  unfold bind at 1 in Hret. unfold bind at 1.
  destruct ((data <- fetch_step fn args (kw_rest kw) (path_of kw) (pre_of kw)
                                (writer_of kw) qs ;;
             read_step (reader_of kw) (path_of kw) data) e)
    as [[data|x] e1 t1]; cbn in *; [|discriminate Hret].
  rewrite Hp in *. unfold post_step, load_data, bind, apply_fn, ret, raise in *.
  destruct data as [d|]; cbn in *; [|discriminate Hret].
  destruct (p d) as [v'|x] eqn:Hpd; cbn in *; [|discriminate Hret].
  exists ((if str_eq "lazy" (strategy_of kw) then [EvExists (path_of kw)]
           else []) ++ t1)%list, d.
  split; [now rewrite app_assoc|]. split; [congruence|].
  rewrite existsb_app, Hquiet.
  now destruct (str_eq "lazy" (strategy_of kw)).
Qed.

(** X9.  The decorator adds nothing: a decorated function called with
    arguments and keywords runs exactly as the engine called on the
    function. *)
Theorem cacheable_is_cacher fn args kw e :
  cacheable fn args kw e = cacher fn args kw e.
Proof. unfold cacheable. apply bind_ret_r. Qed.

(** X10.  The cache at work: a 'lazy' call on a path that does not exist,
    with a writer that creates the file and a reader that reproduces what
    was written, followed by a second 'lazy' call on the same path: the
    second call returns what the first returned, without calling its query
    and without writing. *)
Theorem lazy_second_call_reads_the_file fn fn' args args' kw rest'
    (w : @writer_fn Env) (r : @reader_fn Env) e v e1 t
    (Hlazy : strategy_of kw = VStr "lazy")
    (Hw : writer_of kw = Some w) (Hr : reader_of kw = Some r)
    (Hrt : reproduces w r (path_of kw))
    (Hmissing : os_path_exists (path_of kw) e = false)
    (Hfirst : cacher fn args kw e = Run (Return v) e1 t)
    (Hthere : os_path_exists (path_of kw) e1 = true) :
  let second := cacher fn' args' (with_rest kw rest') e1 in
  out second = Return v
  /\ existsb is_fetch (trace second) = false
  /\ existsb is_write (trace second) = false.
Proof.
  intro second. subst second.
  assert (Hn1 : normalize_strategy (path_of kw) (strategy_of kw) e
                = Run (Return (VStr "create")) e [EvExists (path_of kw)]).
  { rewrite Hlazy, normalize_lazy, Hmissing. reflexivity. }
  assert (Hn2 : normalize_strategy (path_of (with_rest kw rest'))
                  (strategy_of (with_rest kw rest')) e1
                = Run (Return (VStr "file")) e1 [EvExists (path_of kw)]).
  { change (strategy_of (with_rest kw rest')) with (strategy_of kw).
    change (path_of (with_rest kw rest')) with (path_of kw).
    rewrite Hlazy, normalize_lazy, Hthere. reflexivity. }
  rewrite (cacher_steps fn args kw Hn1) in Hfirst.
  rewrite (cacher_steps fn' args' (with_rest kw rest') Hn2). cbn [out trace].
  destruct (steps fn args kw (VStr "create") e) as [o e' t'] eqn:Hsteps.
  cbn [out env' trace] in Hfirst. injection Hfirst as -> -> _.
  destruct (@steps_create_returns Env P fn args kw e v e1 t' w r Hw Hr Hsteps)
    as (x & eb & u & ec & d & Hwrite & Hread & Hpost).
  destruct Hrt as (holds & Hstore & Hload).
  destruct (Hload x ec (Hstore x eb u ec Hwrite)) as (e1' & Hread' & Hheld).
  rewrite Hread in Hread'. injection Hread' as -> ->.
  destruct (Hload x e1' Hheld) as (e2 & Hagain & _).
  split; [|split].
  - rewrite (@steps_file_reads Env P fn' args' (with_rest kw rest') e1' r x e2
               Hr Hagain).
    change (post_of (with_rest kw rest')) with (post_of kw).
    rewrite (post_step_env (post_of kw) (Some x) e1' e2). exact Hpost.
  - rewrite existsb_app.
    change (existsb is_fetch [EvExists (path_of kw)]) with false.
    apply (steps_file_no_fetch fn' args' (with_rest kw rest') e1').
  - rewrite existsb_app.
    change (existsb is_write [EvExists (path_of kw)]) with false.
    apply (steps_without_dirs_no_write fn' args' (with_rest kw rest')
             (VStr "file") e1' eq_refl).
Qed.
End EngineMore.


(* ------------------------------------------------------------------ *)
(** ** More on the facade *)

Section FacadeMore.
Context {Env : Type} {P : Platform Env}.

(** X11.  Path resolution with the cache flag on and no usable file name
    (None, or the empty string): with a manifest, the result, the exception
    and the effects are those of its get_path on the key and the arguments;
    without a manifest the result is None and nothing is called. *)
Theorem get_cache_path_falls_back_to_manifest (m : Manifest)
    (file_name : value) (manifest_key : string) (args : list value) (e : Env)
    (Hno_name : file_name = VNone \/ file_name = VStr "") :
  get_cache_path {| cache := true; manifest := Some m |} file_name
                 manifest_key args e
    = invoke (EvGetPath manifest_key args)
             (Manifest_get_path m manifest_key args) e
  /\ get_cache_path {| cache := true; manifest := None |} file_name
                    manifest_key args e
    = Run (Return VNone) e [].
Proof. destruct Hno_name as [-> | ->]; split; reflexivity. Qed.

(** X12.  Loading a manifest whose file exists makes no directory and does
    not call the builder, so that the run is the same for every class, the
    base class included. *)
Theorem load_manifest_existing_file_needs_no_builder {C : CacheClass}
    (self : Cache) (file_name : string) (e : Env)
    (Hexists : os_path_exists file_name e = true) :
  let r := load_manifest self (Some file_name) e in
  r = @load_manifest Env P Cache_base self (Some file_name) e
  /\ existsb is_make_dirs (trace r) = false
  /\ existsb is_build (trace r) = false.
Proof.
  intro r. subst r. unfold load_manifest.
  rewrite !bind_observe, Hexists. cbn [negb]. rewrite !bind_ret_l.
  split; [reflexivity|].
  split; run_with idtac; reflexivity.
Qed.

(** X13.  A manifest file without a usable 'manifest' entry: the load
    raises what the subscript raises, right after the file was read; no
    Manifest is constructed. *)
Theorem load_manifest_without_manifest_entry {C : CacheClass}
    (self : Cache) (file_name : string) (e e1 : Env) (doc : value) (x : exn)
    (Hexists : os_path_exists file_name e = true)
    (Hread : ju_read file_name e = (Return doc, e1))
    (Hentry : getitem doc "manifest" = Raise x) :
  load_manifest self (Some file_name) e
  = Run (Raise x) e1 [EvExists file_name; EvJsonRead file_name].
Proof.
  unfold load_manifest. rewrite bind_observe, Hexists. cbn [negb].
  run_with ltac:(rewrite ?Hread, ?Hentry). reflexivity.
Qed.

(** X14.  A facade constructed without a manifest file: the construction
    calls nothing, and path resolution on it returns the file name when the
    cache flag is on and the file name is usable, None otherwise, whatever
    the key. *)
Theorem facade_without_manifest {C : CacheClass} (flag : bool)
    (file_name : value) (manifest_key : string) (args : list value)
    (e : Env) :
  exists self,
    Cache_init None flag e = Run (Return self) e []
    /\ get_cache_path self file_name manifest_key args e
       = Run (Return (if flag && truthy file_name then file_name else VNone))
             e [].
Proof.
  exists {| cache := flag; manifest := None |}. split; [reflexivity|].
  unfold get_cache_path. cbn.
  destruct flag; cbn; [|reflexivity]. now destruct (truthy file_name).
Qed.

(** X15.  A facade constructed on an existing manifest file resolves keys
    through the manifest built from the file's 'manifest' entry and the
    directory of the file. *)
Theorem facade_resolves_through_loaded_manifest {C : CacheClass}
    (flag : bool) (file_name : string) (e e1 e2 e3 : Env)
    (doc spec : value) (m : Manifest) (manifest_key : string)
    (args : list value)
    (Hexists : os_path_exists file_name e = true)
    (Hread : ju_read file_name e = (Return doc, e1))
    (Hentry : getitem doc "manifest" = Return spec)
    (Hinit : Manifest_init spec (os_path_dirname file_name) e1
             = (Return m, e2)) :
  exists self,
    Cache_init (Some file_name) flag e
    = Run (Return self) e2
          [EvExists file_name; EvJsonRead file_name;
           EvManifestInit (os_path_dirname file_name)]
    /\ cache self = flag
    /\ (flag = true ->
        get_cache_path self VNone manifest_key args e3
        = invoke (EvGetPath manifest_key args)
                 (Manifest_get_path m manifest_key args) e3).
Proof.
  exists {| cache := flag; manifest := Some m |}. split; [|split].
  - unfold Cache_init, load_manifest. rewrite bind_observe, Hexists.
    cbn [negb]. run_with ltac:(rewrite ?Hread, ?Hentry, ?Hinit). reflexivity.
  - reflexivity.
  - intros ->. reflexivity.
Qed.
End FacadeMore.

(* ------------------------------------------------------------------ *)
(** ** Column renaming, the loaders and the older wrapper *)

Section FramesFacts.
Context {Env : Type} {P : Platform Env} {Pd : Pandas Env}.

Lemma rename_labels_length (n o : string) (cols : list string) :
  length (rename_labels n o cols) = length cols.
Proof. unfold rename_labels. apply length_map. Qed.

Lemma relabel_cons (n o : string) (ts : list (string * string)) (c : string) :
  relabel ((n, o) :: ts) c = relabel ts (if String.eqb c o then n else c).
Proof. reflexivity. Qed.

Lemma relabel_app (ts1 ts2 : list (string * string)) (c : string) :
  relabel (ts1 ++ ts2)%list c = relabel ts2 (relabel ts1 c).
Proof. unfold relabel. apply fold_left_app. Qed.

Lemma rename_loop_columns (Hlaw : columns_assignable)
    (tuples : list (string * string)) :
  forall (d : value) (cols : list string),
    df_columns d = Return cols ->
    exists d', rename_loop d tuples = Return d'
               /\ df_columns d' = Return (map (relabel tuples) cols).
Proof.
  induction tuples as [|[n o] ts IH]; intros d cols Hcols.
  - exists d. split; [reflexivity|]. cbn. now rewrite map_id.
  - cbn [rename_loop]. rewrite Hcols.
    destruct (Hlaw d cols (rename_labels n o cols) Hcols
                (rename_labels_length n o cols)) as (d1 & Hset & Hcols1).
    rewrite Hset.
    destruct (IH d1 _ Hcols1) as (d' & Hloop & Hcols').
    exists d'. split; [exact Hloop|]. rewrite Hcols'. f_equal.
    unfold rename_labels. rewrite map_map. reflexivity.
Qed.

(** X16.  Renaming the columns of a dataframe never fails and relabels each
    column on its own: the columns keep their number and their order, and
    each label goes through the pairs in the order of the list.  With no
    list of pairs the object is returned untouched, dataframe or not. *)
Theorem rename_columns_relabels_in_place (Hlaw : columns_assignable)
    (d : value) (cols : list string) (tuples : list (string * string))
    (Hcols : df_columns d = Return cols) :
  (exists d',
      rename_columns d (Some tuples) = Return d'
      /\ df_columns d' = Return (map (relabel tuples) cols)
      /\ length (map (relabel tuples) cols) = length cols)
  /\ (forall x : value, rename_columns x None = Return x).
Proof.
  split; [|reflexivity].
  destruct (rename_loop_columns Hlaw tuples d Hcols) as (d' & Hloop & Hc).
  exists d'. split; [exact Hloop|]. split; [exact Hc|]. apply length_map.
Qed.

Lemma relabel_unknown (ts : list (string * string)) (c : string) :
  (forall t, In t ts -> snd t <> c) -> relabel ts c = c.
Proof.
  induction ts as [|[n o] ts IH]; intro H; [reflexivity|].
  rewrite relabel_cons.
  destruct (String.eqb c o) eqn:Hco.
  - apply String.eqb_eq in Hco. subst o.
    exfalso. apply (H (n, c)); [now left|reflexivity].
  - apply IH. intros t Ht. apply H. now right.
Qed.

(** X17.  Pairs whose old names are not among the columns change nothing:
    the labels afterwards are the labels before. *)
Theorem rename_columns_unknown_names (Hlaw : columns_assignable)
    (d : value) (cols : list string) (tuples : list (string * string))
    (Hcols : df_columns d = Return cols)
    (Hunknown : forall t, In t tuples -> ~ In (snd t) cols) :
  exists d',
    rename_columns d (Some tuples) = Return d'
    /\ df_columns d' = Return cols.
Proof.
  destruct (rename_loop_columns Hlaw tuples d Hcols) as (d' & Hloop & Hc).
  exists d'. split; [exact Hloop|]. rewrite Hc. f_equal.
  rewrite <- (map_id cols) at 2. apply map_ext_in.
  intros c Hin. apply relabel_unknown.
  intros t Ht Heq. apply (Hunknown t Ht). now rewrite Heq.
Qed.

(** X18.  After a renaming, the old name of the last pair is no label any
    more, unless the pair renames it to itself. *)
Theorem rename_columns_last_old_name_gone (Hlaw : columns_assignable)
    (d : value) (cols : list string) (tuples : list (string * string))
    (new_name old_name : string)
    (Hcols : df_columns d = Return cols)
    (Hdiff : new_name <> old_name) :
  exists d' cols',
    rename_columns d (Some (tuples ++ [(new_name, old_name)])%list) = Return d'
    /\ df_columns d' = Return cols'
    /\ ~ In old_name cols'.
Proof.
  destruct (rename_loop_columns Hlaw (tuples ++ [(new_name, old_name)])%list d
              Hcols) as (d' & Hloop & Hc).
  exists d', (map (relabel (tuples ++ [(new_name, old_name)])%list) cols).
  split; [exact Hloop|]. split; [exact Hc|].
  intro Hin. apply in_map_iff in Hin as (c & Heq & _).
  rewrite relabel_app in Heq. cbn in Heq.
  destruct (String.eqb (relabel tuples c) old_name) eqn:Hc'.
  - now apply Hdiff.
  - apply String.eqb_neq in Hc'. now apply Hc'.
Qed.

(** X19.  The pairs are applied one after the other: renaming with a list
    of pairs is renaming with its first part and then, on the object so
    changed, with the rest, and a failure of the first part ends the
    renaming. *)
Theorem rename_columns_is_sequential (d : value)
    (first rest : list (string * string)) :
  rename_columns d (Some (first ++ rest)%list)
  = match rename_columns d (Some first) with
    | Return d1 => rename_columns d1 (Some rest)
    | Raise x => Raise x
    end.
Proof.
  unfold rename_columns. revert d.
  induction first as [|[n o] ts IH]; intro d; [reflexivity|].
  cbn [app rename_loop].
  destruct (df_columns d) as [cols|x]; [|reflexivity].
  destruct (df_set_columns d (rename_labels n o cols)) as [d1|x];
    [apply IH|reflexivity].
Qed.

(** X20.  Loading a CSV file as a dataframe reads the file once, renames the
    columns of what was read and then looks the index up among the new
    labels; with no index the result has the relabelled columns of the
    file. *)
Theorem load_csv_renames_then_indexes (Hlaw : columns_assignable)
    (path : string) (tuples : list (string * string)) (index : option string)
    (e e1 : Env) (d : value) (cols : list string)
    (Hread : pd_DataFrame_from_csv path e = (Return d, e1))
    (Hcols : df_columns d = Return cols) :
  exists d',
    df_columns d' = Return (map (relabel tuples) cols)
    /\ load_csv path (Some tuples) index e
       = Run (set_index_if_given d' index) e1 [EvRead path]
    /\ load_csv path (Some tuples) None e = Run (Return d') e1 [EvRead path].
Proof.
  destruct (rename_loop_columns Hlaw tuples d Hcols) as (d' & Hloop & Hc).
  exists d'. split; [exact Hc|].
  assert (Hrename : rename_columns d (Some tuples) = Return d') by exact Hloop.
  unfold load_csv.
  split; run_with ltac:(rewrite ?Hread, ?Hrename); reflexivity.
Qed.

(** X21.  The older wrapper with the cache flag off, saving as JSON and
    returning a dataframe, is the JSON loader: same result, same calls. *)
Theorem wrap_read_back_is_load_json (fn : @query_fn Env) (path : string)
    (cache : value) (index : option string)
    (rename : option (list (string * string)))
    (kwargs : list (string * value)) (e : Env)
    (Hoff : is_True cache = false) :
  wrap fn path cache (VBool true) (VBool true) index rename kwargs e
  = load_json path rename index e.
Proof.
  unfold wrap, load_json. rewrite Hoff. cbn [is_True]. run_simpl.
  rewrite bind_ret_l. reflexivity.
Qed.

Lemma wrap_read_back_quiet (path : string) (save_as_json return_dataframe : value)
    (index : option string) (rename : option (list (string * string)))
    (f : event -> bool) (e : Env)
    (Hread : f (EvRead path) = false) (Hjson : f (EvJsonRead path) = false) :
  existsb f
    (trace
       ((if is_True save_as_json then
           if is_True return_dataframe then
             data <- invoke (EvRead path) (pj_read_json path) ;;
             data <- lift_outcome (rename_columns data rename) ;;
             data <- lift_outcome (set_index_if_given data index) ;;
             ret data
           else
             data <- invoke (EvJsonRead path) (ju_read path) ;;
             ret data
         else if is_True return_dataframe then
           data <- invoke (EvRead path) (pd_DataFrame_from_csv path) ;;
           ret data
         else
           raise (OtherError "ValueError"
                    "save_as_json=False cannot be used with return_dataframe=False"))
          e)) = false.
Proof.
  destruct (is_True save_as_json), (is_True return_dataframe);
    run_cases; cbn [existsb]; rewrite ?Hread, ?Hjson; reflexivity.
Qed.

(** X22.  The older wrapper calls the query and writes only when the cache
    flag is the object True: with any other flag, a truthy one such as 1
    included, the query is not called and nothing is written. *)
Theorem wrap_without_True_flag_never_fetches (fn : @query_fn Env)
    (path : string) (cache save_as_json return_dataframe : value)
    (index : option string) (rename : option (list (string * string)))
    (kwargs : list (string * value)) (e : Env)
    (Hoff : is_True cache = false) :
  let r := wrap fn path cache save_as_json return_dataframe index rename
                kwargs e in
  existsb is_fetch (trace r) = false /\ existsb is_write (trace r) = false.
Proof.
  intro r. subst r. unfold wrap. rewrite Hoff. run_simpl. rewrite bind_ret_l.
  split; apply wrap_read_back_quiet; reflexivity.
Qed.

(** X23.  Saving as CSV without returning a dataframe is refused, but late:
    with the cache flag off the call raises ValueError at once, whatever the
    query would do; with the flag on it raises only after the query was
    called and the CSV file written. *)
Theorem wrap_refuses_csv_without_dataframe_late (fn : @query_fn Env)
    (path : string) (cache save_as_json return_dataframe : value)
    (index : option string) (rename : option (list (string * string)))
    (kwargs : list (string * value)) (e : Env)
    (Hcsv : is_True save_as_json = false)
    (Hnoframe : is_True return_dataframe = false) :
  let refused :=
    Raise (OtherError "ValueError"
             "save_as_json=False cannot be used with return_dataframe=False") in
  (is_True cache = false ->
   wrap fn path cache save_as_json return_dataframe index rename kwargs e
   = Run refused e [])
  /\ (is_True cache = true ->
      forall (e1 e2 : Env) (json_data df df1 df2 u : value),
        fn [] kwargs e = (Return json_data, e1) ->
        pd_DataFrame json_data = Return df ->
        rename_columns df rename = Return df1 ->
        set_index_if_given df1 index = Return df2 ->
        df_to_csv df2 path e1 = (Return u, e2) ->
        wrap fn path cache save_as_json return_dataframe index rename kwargs e
        = Run refused e2 [EvFetch [] kwargs; EvWrite path df2]).
Proof.
  intro refused. subst refused. unfold wrap. rewrite Hcsv, Hnoframe.
  split; intros ->.
  - run_with idtac. reflexivity.
  - intros e1 e2 json_data df df1 df2 u Hfn Hframe Hrename Hindex Hwrite.
    run_with ltac:(rewrite ?Hfn, ?Hframe, ?Hrename, ?Hindex, ?Hwrite).
    reflexivity.
Qed.

(** X24.  The older wrapper with the cache flag on, saving as JSON and not
    returning a dataframe: the query's result is written with ju.write and
    the call returns what ju.read then reads from the path; index and
    rename play no part. *)
Theorem wrap_json_writes_then_reads_back (fn : @query_fn Env) (path : string)
    (return_dataframe : value) (index : option string)
    (rename : option (list (string * string)))
    (kwargs : list (string * value)) (e e1 e2 e3 : Env)
    (json_data u data : value)
    (Hnoframe : is_True return_dataframe = false)
    (Hfn : fn [] kwargs e = (Return json_data, e1))
    (Hwrite : ju_write path json_data e1 = (Return u, e2))
    (Hread : ju_read path e2 = (Return data, e3)) :
  wrap fn path (VBool true) (VBool true) return_dataframe index rename
       kwargs e
  = Run (Return data) e3
        [EvFetch [] kwargs; EvWrite path json_data; EvJsonRead path].
Proof.
  unfold wrap. cbn [is_True]. rewrite Hnoframe.
  run_with ltac:(rewrite ?Hfn, ?Hwrite, ?Hread). reflexivity.
Qed.

(** X25.  The bundles without cache, used with no strategy: with
    nocache_json the call returns what the query returned, with
    nocache_dataframe the dataframe made of it; the query is the only call
    that touches the environment, whatever the path is. *)
Theorem nocache_bundles_pass_through (fn : @query_fn Env) (args : list value)
    (path : kwarg string) (rest : list (string * value)) (e e1 : Env)
    (d : value)
    (Hfn : fn args rest e = (Return d, e1)) :
  cacher fn args (call_with path Absent nocache_json rest) e
    = Run (Return d) e1 [EvFetch args rest; EvPost d]
  /\ cacher fn args (call_with path Absent nocache_dataframe rest) e
    = Run (pd_DataFrame d) e1 [EvFetch args rest; EvPost d].
Proof.
  split.
  - rewrite (@cacher_steps _ _ fn args (call_with path Absent nocache_json rest)
               e (VStr "pass_through") []) by reflexivity.
    unfold steps.
    change (reader_of (call_with path Absent nocache_json rest))
      with (@None (@reader_fn Env)).
    change (post_of (call_with path Absent nocache_json rest))
      with (Some identity).
    change (kw_rest (call_with path Absent nocache_json rest)) with rest.
    run_with ltac:(rewrite ?Hfn). reflexivity.
  - rewrite (@cacher_steps _ _ fn args
               (call_with path Absent nocache_dataframe rest)
               e (VStr "pass_through") []) by reflexivity.
    unfold steps.
    change (reader_of (call_with path Absent nocache_dataframe rest))
      with (@None (@reader_fn Env)).
    change (post_of (call_with path Absent nocache_dataframe rest))
      with (Some pd_DataFrame).
    change (kw_rest (call_with path Absent nocache_dataframe rest)) with rest.
    run_with ltac:(rewrite ?Hfn); reflexivity.
Qed.

(** X26.  The CSV bundles under 'create': cache_csv_json writes the query's
    result as it is and returns the records of the dataframe read back from
    the file; cache_csv writes the dataframe made of the query's result and
    returns the dataframe read back. *)
Theorem csv_bundles_under_create (fn : @query_fn Env) (args : list value)
    (path : string) (rest : list (string * value)) (e ea eb : Env)
    (d : value)
    (Hdirs : Manifest_safe_make_parent_dirs path e = (Return tt, ea))
    (Hfn : fn args rest ea = (Return d, eb)) :
  (forall u ec back ed,
      df_to_csv d path eb = (Return u, ec) ->
      pd_DataFrame_from_csv path ec = (Return back, ed) ->
      cacher fn args
        (call_with (Given path) (Given (VStr "create")) cache_csv_json rest) e
      = Run (df_to_dict back) ed
            [EvMakeParentDirs path; EvFetch args rest; EvPre d;
             EvWrite path d; EvRead path; EvPost back])
  /\ (forall df u ec back ed,
      pd_DataFrame d = Return df ->
      df_to_csv df path eb = (Return u, ec) ->
      pd_DataFrame_from_csv path ec = (Return back, ed) ->
      cacher fn args
        (call_with (Given path) (Given (VStr "create")) cache_csv rest) e
      = Run (Return back) ed
            [EvMakeParentDirs path; EvFetch args rest; EvPre d;
             EvWrite path df; EvRead path; EvPost back]).
Proof.
  split.
  - intros u ec back ed Hwrite Hread.
    rewrite (@cacher_steps _ _ fn args
               (call_with (Given path) (Given (VStr "create"))
                  cache_csv_json rest)
               e (VStr "create") []) by reflexivity.
    unfold steps.
    change (reader_of (call_with (Given path) (Given (VStr "create"))
                         cache_csv_json rest))
      with (Some pd_DataFrame_from_csv).
    change (writer_of (call_with (Given path) (Given (VStr "create"))
                         cache_csv_json rest))
      with (Some to_csv_writer).
    change (pre_of (call_with (Given path) (Given (VStr "create"))
                      cache_csv_json rest))
      with (Some identity).
    change (post_of (call_with (Given path) (Given (VStr "create"))
                       cache_csv_json rest))
      with (Some df_to_dict).
    change (path_of (call_with (Given path) (Given (VStr "create"))
                       cache_csv_json rest)) with path.
    change (kw_rest (call_with (Given path) (Given (VStr "create"))
                       cache_csv_json rest)) with rest.
    assert (Hwrite' : to_csv_writer path d eb = (Return u, ec))
      by exact Hwrite.
    run_with ltac:(rewrite ?Hdirs, ?Hfn, ?Hwrite', ?Hread); reflexivity.
  - intros df u ec back ed Hframe Hwrite Hread.
    rewrite (@cacher_steps _ _ fn args
               (call_with (Given path) (Given (VStr "create")) cache_csv rest)
               e (VStr "create") []) by reflexivity.
    unfold steps.
    change (reader_of (call_with (Given path) (Given (VStr "create"))
                         cache_csv rest))
      with (Some pd_DataFrame_from_csv).
    change (writer_of (call_with (Given path) (Given (VStr "create"))
                         cache_csv rest))
      with (Some to_csv_writer).
    change (pre_of (call_with (Given path) (Given (VStr "create"))
                      cache_csv rest))
      with (Some pd_DataFrame).
    change (post_of (call_with (Given path) (Given (VStr "create"))
                       cache_csv rest))
      with (Some identity).
    change (path_of (call_with (Given path) (Given (VStr "create"))
                       cache_csv rest)) with path.
    change (kw_rest (call_with (Given path) (Given (VStr "create"))
                       cache_csv rest)) with rest.
    assert (Hwrite' : to_csv_writer path df eb = (Return u, ec))
      by exact Hwrite.
    run_with ltac:(rewrite ?Hdirs, ?Hfn, ?Hframe, ?Hwrite', ?Hread).
    reflexivity.
Qed.
End FramesFacts.

(* ------------------------------------------------------------------ *)
(** ** The further theorems at work on the small file system *)

Lemma demo_labels (cols : list string) :
  DemoFrames.labels (map VStr cols) = Some cols.
Proof.
  induction cols as [|c cols IH]; [reflexivity|].
  cbn [map DemoFrames.labels]. now rewrite IH.
Qed.

Lemma demo_columns_frame (cols : list string) (rows : value) :
  DemoFrames.columns (DemoFrames.frame cols rows) = Return cols.
Proof.
  unfold DemoFrames.columns, DemoFrames.frame, DemoFrames.parts.
  change (String.eqb "columns" "columns" && String.eqb "rows" "rows")
    with true.
  cbv beta iota. now rewrite demo_labels.
Qed.

Lemma demo_columns_assignable :
  columns_assignable (Pd := DemoFrames.pandas).
Proof.
  intros d cols new_labels Hcols Hlen.
  change (DemoFrames.columns d = Return cols) in Hcols.
  change (exists d', DemoFrames.set_columns d new_labels = Return d'
                     /\ DemoFrames.columns d' = Return new_labels).
  unfold DemoFrames.columns in Hcols. unfold DemoFrames.set_columns.
  destruct (DemoFrames.parts d) as [[cols0 rows]|]; [|discriminate Hcols].
  injection Hcols as ->. rewrite Hlen, Nat.eqb_refl.
  exists (DemoFrames.frame new_labels rows).
  split; [reflexivity|apply demo_columns_frame].
Qed.



(** 'create' with a writer and no reader. *)
Lemma create_without_reader_returns_written_witness :
  cacher Demo.fetch_table [] (DemoCalls.write_only "cells.csv" (VStr "create"))
    Demo.empty
  = after_events
      (check_events (DemoCalls.write_only "cells.csv" (VStr "create"))
       ++ [EvMakeParentDirs "cells.csv"; EvFetch [] [];
           EvPre Demo.table; EvWrite "cells.csv" Demo.table])
      (post_step (Some identity) (Some Demo.table)
         (Demo.store "cells.csv" Demo.table Demo.empty)).
Proof.
  exact (@create_without_reader_returns_written Demo.fs Demo.platform
           Demo.fetch_table []
           (DemoCalls.write_only "cells.csv" (VStr "create")) Demo.empty
           (VStr "create") Demo.write_file identity Demo.table Demo.table
           VNone Demo.empty Demo.empty
           (Demo.store "cells.csv" Demo.table Demo.empty)
           eq_refl eq_refl eq_refl eq_refl eq_refl eq_refl eq_refl eq_refl
           eq_refl).
Defined.

(** 'create' with no hook at all. *)
Lemma create_without_writer_drops_result_witness :
  cacher Demo.fetch_table [] (@bare_call Demo.fs "cells.csv" (VStr "create") [])
    Demo.empty
  = after_events
      (check_events (@bare_call Demo.fs "cells.csv" (VStr "create") [])
       ++ [EvFetch [] []])
      ((data <- read_step None "cells.csv" None ;;
        post_step (Some identity) data) Demo.empty).
Proof.
  exact (@create_without_writer_drops_result Demo.fs Demo.platform
           Demo.fetch_table [] (@bare_call Demo.fs "cells.csv" (VStr "create") [])
           Demo.empty (VStr "create") Demo.table Demo.empty
           eq_refl eq_refl eq_refl eq_refl).
Defined.

(** 'file' with pre given as None. *)
Lemma pre_only_on_create_with_writer_witness :
  cacher Demo.fetch_fails []
    (with_pre (Demo.cached "data.csv" (VStr "file")) (Given None))
    Demo.stale_fs
  = cacher Demo.fetch_fails [] (Demo.cached "data.csv" (VStr "file"))
      Demo.stale_fs.
Proof.
  exact (@pre_only_on_create_with_writer Demo.fs Demo.platform
           Demo.fetch_fails [] (Demo.cached "data.csv" (VStr "file"))
           Demo.stale_fs (VStr "file") (Given None) eq_refl eq_refl).
Defined.

(** 'create' with a writer and pre given as None. *)
Lemma pre_None_raises_before_write_witness :
  cacher Demo.fetch_table []
    (with_pre (Demo.cached "cells.csv" (VStr "create")) (Given None))
    Demo.empty
  = Run (Raise (TypeError "'NoneType' object is not callable")) Demo.empty
        (check_events (Demo.cached "cells.csv" (VStr "create"))
         ++ [EvMakeParentDirs "cells.csv"; EvFetch [] []]).
Proof.
  exact (@pre_None_raises_before_write Demo.fs Demo.platform Demo.fetch_table
           [] (Demo.cached "cells.csv" (VStr "create")) Demo.empty
           (VStr "create") Demo.write_file Demo.table Demo.empty Demo.empty
           eq_refl eq_refl eq_refl eq_refl eq_refl).
Defined.

(** 'create' with the hook that wraps in a list. *)
Lemma post_is_applied_last_witness :
  exists t d,
    trace (cacher Demo.fetch_table []
             (Demo.cached "cells.csv" (VStr "create")) Demo.empty)
    = (t ++ [EvPost d])%list
    /\ Demo.wrap_list d = Return (VList [Demo.table])
    /\ existsb is_post t = false.
Proof.
  exact (@post_is_applied_last Demo.fs Demo.platform Demo.fetch_table []
           (Demo.cached "cells.csv" (VStr "create")) Demo.empty
           Demo.wrap_list (VList [Demo.table]) eq_refl eq_refl).
Defined.

(** 'lazy' twice on cells.csv: the second call, whose query fails if
    called, returns what the first returned. *)
Lemma lazy_second_call_reads_the_file_witness :
  let second :=
    cacher Demo.fetch_fails []
      (with_rest (Demo.cached "cells.csv" (VStr "lazy")) [])
      (Demo.store "cells.csv" Demo.table Demo.empty) in
  out second = Return (VList [Demo.table])
  /\ existsb is_fetch (trace second) = false
  /\ existsb is_write (trace second) = false.
Proof.
  exact (@lazy_second_call_reads_the_file Demo.fs Demo.platform
           Demo.fetch_table Demo.fetch_fails [] []
           (Demo.cached "cells.csv" (VStr "lazy")) []
           Demo.write_file Demo.read_file Demo.empty
           (VList [Demo.table])
           (Demo.store "cells.csv" Demo.table Demo.empty)
           [EvExists "cells.csv"; EvMakeParentDirs "cells.csv";
            EvFetch [] []; EvPre Demo.table;
            EvWrite "cells.csv" Demo.table; EvRead "cells.csv";
            EvPost Demo.table]
           eq_refl eq_refl eq_refl (write_then_read_reproduces "cells.csv")
           eq_refl eq_refl eq_refl).
Defined.

(** No file name, a manifest with one entry. *)
Lemma get_cache_path_falls_back_to_manifest_witness :
  get_cache_path {| cache := true;
                    manifest := Some (DemoCalls.one_entry, "") |}
    VNone "cells" [] Demo.empty
  = Run (Return (VStr "cells.csv")) Demo.empty [EvGetPath "cells" []].
Proof.
  exact (proj1 (@get_cache_path_falls_back_to_manifest Demo.fs Demo.platform
                  (DemoCalls.one_entry, "") VNone "cells" [] Demo.empty
                  (or_introl eq_refl))).
Defined.

(** The subclass on a manifest file that exists. *)
Lemma load_manifest_existing_file_needs_no_builder_witness :
  let r := load_manifest (C := Demo.subclass)
             {| cache := true; manifest := None |}
             (Some "manifest.json") DemoCalls.manifest_fs in
  r = load_manifest (C := Cache_base) {| cache := true; manifest := None |}
        (Some "manifest.json") DemoCalls.manifest_fs
  /\ existsb is_make_dirs (trace r) = false
  /\ existsb is_build (trace r) = false.
Proof.
  exact (@load_manifest_existing_file_needs_no_builder Demo.fs Demo.platform
           Demo.subclass {| cache := true; manifest := None |}
           "manifest.json" DemoCalls.manifest_fs eq_refl).
Defined.

(** A manifest file that holds an empty dict. *)
Lemma load_manifest_without_manifest_entry_witness :
  load_manifest (C := Demo.subclass) {| cache := true; manifest := None |}
    (Some "manifest.json") DemoCalls.broken_fs
  = Run (Raise (OtherError "KeyError" "manifest")) DemoCalls.broken_fs
        [EvExists "manifest.json"; EvJsonRead "manifest.json"].
Proof.
  exact (@load_manifest_without_manifest_entry Demo.fs Demo.platform
           Demo.subclass {| cache := true; manifest := None |}
           "manifest.json" DemoCalls.broken_fs DemoCalls.broken_fs
           (VDict []) (OtherError "KeyError" "manifest")
           eq_refl eq_refl eq_refl).
Defined.

(** The facade on the manifest file with one entry. *)
Lemma facade_resolves_through_loaded_manifest_witness :
  exists self,
    Cache_init (C := Demo.subclass) (Some "manifest.json") true
      DemoCalls.manifest_fs
    = Run (Return self) DemoCalls.manifest_fs
          [EvExists "manifest.json"; EvJsonRead "manifest.json";
           EvManifestInit (os_path_dirname "manifest.json")]
    /\ cache self = true
    /\ (true = true ->
        get_cache_path self VNone "cells" [] Demo.empty
        = invoke (EvGetPath "cells" [])
            (Manifest_get_path (DemoCalls.one_entry, "") "cells" [])
            Demo.empty).
Proof.
  exact (@facade_resolves_through_loaded_manifest Demo.fs Demo.platform
           Demo.subclass true "manifest.json" DemoCalls.manifest_fs
           DemoCalls.manifest_fs DemoCalls.manifest_fs Demo.empty
           (VDict [("manifest", DemoCalls.one_entry)]) DemoCalls.one_entry
           (DemoCalls.one_entry, "") "cells" []
           eq_refl eq_refl eq_refl eq_refl).
Defined.

(** Renaming id to cell_id and then cell_id to ident. *)
Lemma rename_columns_relabels_in_place_witness :
  (exists d',
      rename_columns DemoFrames.cells
        (Some [("cell_id", "id"); ("ident", "cell_id")]) = Return d'
      /\ df_columns d'
         = Return (map (relabel [("cell_id", "id"); ("ident", "cell_id")])
                     ["id"; "name"])
      /\ length (map (relabel [("cell_id", "id"); ("ident", "cell_id")])
                   ["id"; "name"]) = length ["id"; "name"])
  /\ (forall x : value, rename_columns x None = Return x).
Proof.
  exact (@rename_columns_relabels_in_place Demo.fs DemoFrames.pandas
           demo_columns_assignable DemoFrames.cells ["id"; "name"]
           [("cell_id", "id"); ("ident", "cell_id")] eq_refl).
Defined.

(** Renaming a column that is not there. *)
Lemma rename_columns_unknown_names_witness :
  exists d',
    rename_columns DemoFrames.cells (Some [("area", "structure")])
    = Return d'
    /\ df_columns d' = Return ["id"; "name"].
Proof.
  apply (@rename_columns_unknown_names Demo.fs DemoFrames.pandas
           demo_columns_assignable DemoFrames.cells ["id"; "name"]
           [("area", "structure")] eq_refl).
  intros t [<-|[]] [H|[H|[]]]; discriminate H.
Defined.

(** Renaming name to id and then id to ident. *)
Lemma rename_columns_last_old_name_gone_witness :
  exists d' cols',
    rename_columns DemoFrames.cells
      (Some ([("id", "name")] ++ [("ident", "id")])%list) = Return d'
    /\ df_columns d' = Return cols'
    /\ ~ In "id" cols'.
Proof.
  apply (@rename_columns_last_old_name_gone Demo.fs DemoFrames.pandas
           demo_columns_assignable DemoFrames.cells ["id"; "name"]
           [("id", "name")] "ident" "id" eq_refl).
  discriminate.
Defined.

(** Loading cells.csv with id renamed to cell_id, indexed by the new
    name. *)
Lemma load_csv_renames_then_indexes_witness :
  exists d',
    df_columns d' = Return (map (relabel [("cell_id", "id")]) ["id"; "name"])
    /\ load_csv "cells.csv" (Some [("cell_id", "id")]) (Some "cell_id")
         DemoFrames.cells_fs
       = Run (set_index_if_given d' (Some "cell_id")) DemoFrames.cells_fs
             [EvRead "cells.csv"]
    /\ load_csv "cells.csv" (Some [("cell_id", "id")]) None
         DemoFrames.cells_fs
       = Run (Return d') DemoFrames.cells_fs [EvRead "cells.csv"].
Proof.
  exact (@load_csv_renames_then_indexes Demo.fs DemoFrames.pandas
           demo_columns_assignable "cells.csv" [("cell_id", "id")]
           (Some "cell_id") DemoFrames.cells_fs DemoFrames.cells_fs
           DemoFrames.cells ["id"; "name"] eq_refl eq_refl).
Defined.

(** The older wrapper with the flag False. *)
Lemma wrap_read_back_is_load_json_witness :
  wrap Demo.fetch_fails "cells.csv" (VBool false) (VBool true) (VBool true)
    (Some "cell_id") (Some [("cell_id", "id")]) [] DemoFrames.cells_fs
  = load_json "cells.csv" (Some [("cell_id", "id")]) (Some "cell_id")
      DemoFrames.cells_fs.
Proof.
  exact (@wrap_read_back_is_load_json Demo.fs Demo.platform DemoFrames.pandas
           Demo.fetch_fails "cells.csv" (VBool false) (Some "cell_id")
           (Some [("cell_id", "id")]) [] DemoFrames.cells_fs eq_refl).
Defined.

(** The older wrapper with the flag 1. *)
Lemma wrap_without_True_flag_never_fetches_witness :
  let r := wrap Demo.fetch_table "cells.csv" (VInt 1) (VBool true)
             (VBool false) None None [] DemoFrames.cells_fs in
  existsb is_fetch (trace r) = false /\ existsb is_write (trace r) = false.
Proof.
  exact (@wrap_without_True_flag_never_fetches Demo.fs Demo.platform
           DemoFrames.pandas Demo.fetch_table "cells.csv" (VInt 1)
           (VBool true) (VBool false) None None [] DemoFrames.cells_fs
           eq_refl).
Defined.

(** The older wrapper saving as CSV without returning a dataframe: with
    the flag 1 and a query that would fail, and with the flag True. *)
Lemma wrap_refuses_csv_without_dataframe_late_witness :
  wrap Demo.fetch_fails "cells.csv" (VInt 1) (VBool false) (VBool false)
    None None [] Demo.stale_fs
  = Run (Raise (OtherError "ValueError"
                  "save_as_json=False cannot be used with return_dataframe=False"))
        Demo.stale_fs []
  /\ wrap Demo.fetch_table "cells.csv" (VBool true) (VBool false)
       (VBool false) None None [] Demo.empty
     = Run (Raise (OtherError "ValueError"
                     "save_as_json=False cannot be used with return_dataframe=False"))
           (Demo.store "cells.csv" DemoCalls.table_frame Demo.empty)
           [EvFetch [] []; EvWrite "cells.csv" DemoCalls.table_frame].
Proof.
  split.
  - exact (proj1 (@wrap_refuses_csv_without_dataframe_late Demo.fs
                    Demo.platform DemoFrames.pandas Demo.fetch_fails
                    "cells.csv" (VInt 1) (VBool false) (VBool false) None
                    None [] Demo.stale_fs eq_refl eq_refl)
                 eq_refl).
  - exact (proj2 (@wrap_refuses_csv_without_dataframe_late Demo.fs
                    Demo.platform DemoFrames.pandas Demo.fetch_table
                    "cells.csv" (VBool true) (VBool false) (VBool false) None
                    None [] Demo.empty eq_refl eq_refl)
                 eq_refl Demo.empty
                 (Demo.store "cells.csv" DemoCalls.table_frame Demo.empty)
                 Demo.table DemoCalls.table_frame DemoCalls.table_frame
                 DemoCalls.table_frame VNone
                 eq_refl eq_refl eq_refl eq_refl eq_refl).
Defined.

(** The older wrapper saving as JSON, with the flag True. *)
Lemma wrap_json_writes_then_reads_back_witness :
  wrap Demo.fetch_table "cells.json" (VBool true) (VBool true) (VBool false)
    (Some "id") (Some [("cell_id", "id")]) [] Demo.empty
  = Run (Return Demo.table) (Demo.store "cells.json" Demo.table Demo.empty)
        [EvFetch [] []; EvWrite "cells.json" Demo.table;
         EvJsonRead "cells.json"].
Proof.
  exact (@wrap_json_writes_then_reads_back Demo.fs Demo.platform
           DemoFrames.pandas Demo.fetch_table "cells.json" (VBool false)
           (Some "id") (Some [("cell_id", "id")]) [] Demo.empty Demo.empty
           (Demo.store "cells.json" Demo.table Demo.empty)
           (Demo.store "cells.json" Demo.table Demo.empty)
           Demo.table VNone Demo.table eq_refl eq_refl eq_refl eq_refl).
Defined.

(** The bundles without cache on a file system that holds an older
    result. *)
Lemma nocache_bundles_pass_through_witness :
  cacher Demo.fetch_table [] (call_with Absent Absent nocache_json [])
    Demo.stale_fs
  = Run (Return Demo.table) Demo.stale_fs [EvFetch [] []; EvPost Demo.table]
  /\ cacher Demo.fetch_table []
       (call_with Absent Absent nocache_dataframe []) Demo.stale_fs
     = Run (pd_DataFrame Demo.table) Demo.stale_fs
           [EvFetch [] []; EvPost Demo.table].
Proof.
  exact (@nocache_bundles_pass_through Demo.fs Demo.platform DemoFrames.pandas
           Demo.fetch_table [] Absent [] Demo.stale_fs Demo.stale_fs
           Demo.table eq_refl).
Defined.

(** cache_csv under 'create' on cells.csv. *)
Lemma csv_bundles_under_create_witness :
  cacher Demo.fetch_table []
    (call_with (Given "cells.csv") (Given (VStr "create")) cache_csv []) 
    Demo.empty
  = Run (Return DemoCalls.table_frame)
        (Demo.store "cells.csv" DemoCalls.table_frame Demo.empty)
        [EvMakeParentDirs "cells.csv"; EvFetch [] []; EvPre Demo.table;
         EvWrite "cells.csv" DemoCalls.table_frame; EvRead "cells.csv";
         EvPost DemoCalls.table_frame].
Proof.
  exact (proj2 (@csv_bundles_under_create Demo.fs Demo.platform
                  DemoFrames.pandas Demo.fetch_table [] "cells.csv" []
                  Demo.empty Demo.empty Demo.empty Demo.table
                  eq_refl eq_refl)
               DemoCalls.table_frame VNone
               (Demo.store "cells.csv" DemoCalls.table_frame Demo.empty)
               DemoCalls.table_frame
               (Demo.store "cells.csv" DemoCalls.table_frame Demo.empty)
               eq_refl eq_refl eq_refl).
Defined.
